(** * epike_bus_dump: demodulator and decoder of the Shimano EP800 e-bike bus

    A shallow embedding of [epike_bus_dump.py].  The program is one function,
    [main], made of an outer loop over bursts; each block of that loop is a
    definition below, named after the variable it computes or the comment that
    heads it in the source, and [main_loop] puts the blocks together again.

    Python values are modelled as follows.
    - A sample, a byte, a device id and a command key are [Z].  The arithmetic
      on device ids and command keys is the one of Python integers (the
      source shifts a device id by 16 bits and matches the result against
      24-bit literals, its comments list the keys it saw).
    - A numpy array of bytes is a [list Z]; no array is ever written in place
      ([np.append] returns a new array), so sharing is not observable.
    - [data_packets], a dict, is a [gmap Z (list Z)].
    - An uncaught Python exception ends the program: [Exc] is the error
      monad, [M] adds the state of [main] to it.
    - A local variable of [main] that is assigned in one iteration of the
      loop keeps its value in the next ones; the ones that are read on a
      path that does not assign them are fields of [State], [None] while
      still unbound.
    - The two comparisons against a float ([y < MEAN] and the height of a
      peak) are made on exact rationals; on 8-bit samples and at most 1600
      of them the float64 evaluation decides the same way. *)

From Stdlib Require Import ZArith QArith Lia.
From stdpp Require Import gmap strings list fin_maps.

#[local] Open Scope Z_scope.

(** ** Exceptions *)

Inductive Exception :=
  IndexError | KeyError | TypeError | ValueError | UnboundLocalError.

Definition Exc (A : Type) : Type := Exception + A.

Definition raise {A} (e : Exception) : Exc A := inl e.

#[export] Instance Exc_ret : MRet Exc := fun _ x => inr x.
#[export] Instance Exc_bind : MBind Exc := fun _ _ f m =>
  match m with
  | inl e => inl e
  | inr x => f x
  end.

(** [a[0]] and [a[-1]] on a numpy array: [IndexError] when it is empty. *)
Definition index_first {A} (a : list A) : Exc A :=
  match a with
  | [] => raise IndexError
  | x :: _ => mret x
  end.

Definition index_last {A} (a : list A) : Exc A :=
  match last a with
  | None => raise IndexError
  | Some x => mret x
  end.

(** [a[lo:hi]] for [0 <= lo <= hi]: Python clamps a slice to the array. *)
Definition slice {A} (lo hi : nat) (a : list A) : list A :=
  take (hi - lo) (drop lo a).

(** ** Constants *)

Definition ADC_SAMPLE_RATE : Z := 5000000.
Definition DEMOD_SAMPLE_RATE : Z := 1 * ADC_SAMPLE_RATE.
Definition BPSK_SYMBOL_RATE : Z := 500000.
Definition SAMPLES_PER_SYMBOL : Z := DEMOD_SAMPLE_RATE / BPSK_SYMBOL_RATE.
Definition ADC_SAMPLES_FOR_3_BYTE_MSG : Z := ADC_SAMPLE_RATE / BPSK_SYMBOL_RATE * 8 * 3.
Definition ADC_SAMPLES_FOR_TOO_LONG_MSG : Z := ADC_SAMPLE_RATE / BPSK_SYMBOL_RATE * 8 * 20.

(** [round(255 / 2 + 256 * 0.034)] and [round(255 / 2 - 256 * 0.034)]. *)
Definition NOISE_THRESHOLD_MAX : Z := 136.
Definition NOISE_THRESHOLD_MIN : Z := 119.

Definition MSG_FILTER : list (list Z) :=
  [ [0xcf; 0x7f; 0x81];
    [0xcc; 0x80; 0x9a];
    [0xcc; 0x8d; 0x01];
    [0xcc; 0x93; 0x01];
    [0xcf; 0x7f; 0x80];
    [0xcc; 0x80; 0xa6] ].

(** ** Library functions the program calls *)

(** *** scipy.signal.find_peaks(x, height=h)

    [_local_maxima_1d]: a sample is a peak when its left neighbour is
    smaller and the next different sample to the right is smaller too; of a
    flat top the middle index (rounded down) is reported.  The first and the
    last sample are never peaks.  Every index the loops read is inside
    the array ([at_] never takes its default there). *)

Definition at_ (x : list Z) (i : nat) : Z := default 0 (x !! i).

Fixpoint skip_equal (fuel : nat) (x : list Z) (i i_ahead i_max : nat) : nat :=
  match fuel with
  | O => i_ahead
  | S fuel =>
      if (i_ahead <? i_max)%nat && (at_ x i_ahead =? at_ x i)
      then skip_equal fuel x i (S i_ahead) i_max
      else i_ahead
  end.

Fixpoint local_maxima_loop (fuel : nat) (x : list Z) (i i_max : nat) : list nat :=
  match fuel with
  | O => []
  | S fuel =>
      if (i <? i_max)%nat then
        if at_ x (i - 1) <? at_ x i then
          let i_ahead := skip_equal (length x) x i (i + 1) i_max in
          if at_ x i_ahead <? at_ x i then
            ((i + (i_ahead - 1)) / 2)%nat
              :: local_maxima_loop fuel x (i_ahead + 1) i_max
          else local_maxima_loop fuel x (i + 1) i_max
        else local_maxima_loop fuel x (i + 1) i_max
      else []
  end.

Definition local_maxima_1d (x : list Z) : list nat :=
  local_maxima_loop (length x) x 1 (length x - 1).

(** [height] is a rational: the source passes [0.87 * m] for a sample [m]. *)
Definition find_peaks (x : list Z) (height : Q) : list nat :=
  List.filter (fun p => Qle_bool height (inject_Z (at_ x p))) (local_maxima_1d x).

(** *** numpy.packbits(bits)

    Eight bits to a byte, the first bit is the most significant one; the
    last byte is completed with zero bits.  Called on an empty Python list
    it raises [TypeError] (the list converts to an array of floats). *)

Definition bit (b : bool) : Z := if b then 1 else 0.

Definition pack_byte (bs : list bool) : Z :=
  foldl (fun acc k => Z.lor (Z.shiftl acc 1) (bit (default false (bs !! k)))) 0 (seq 0 8).

Fixpoint pack_loop (n : nat) (bits : list bool) : list Z :=
  match n with
  | O => []
  | S n => pack_byte (take 8 bits) :: pack_loop n (drop 8 bits)
  end.

Definition packbits (bits : list bool) : Exc (list Z) :=
  match bits with
  | [] => raise TypeError
  | _ => mret (pack_loop ((length bits + 7) / 8) bits)
  end.

(** *** crcmod.mkCrcFun(poly, initCrc, xorOut=0, rev=False), 8 bits wide *)

Definition bytecrc (crc poly : Z) : Z :=
  Z.land
    (foldl (fun crc _ =>
              if Z.testbit crc 7
              then Z.lxor (Z.shiftl crc 1) poly
              else Z.shiftl crc 1) crc (seq 0 8))
    0xFF.

Definition mkTable (poly : Z) : list Z :=
  map (fun i => bytecrc (Z.of_nat i) (Z.land poly 0xFF)) (seq 0 256).

Definition mkCrcFun (poly initCrc : Z) : list Z -> Z :=
  let table := mkTable poly in
  fun data => foldl (fun crc x => default 0 (table !! Z.to_nat (Z.lxor x crc))) (Z.land initCrc 0xFF) data.

(** ** Demodulator (one burst to one data frame) *)

(** [a[i]]: [IndexError] outside the array. *)
Definition getitem {A} (a : list A) (i : nat) : Exc A :=
  match a !! i with
  | None => raise IndexError
  | Some x => mret x
  end.

(** [a.min()], [a.max()]: [ValueError] on an empty array. *)
Definition amin (a : list Z) : Exc Z :=
  match a with
  | [] => raise ValueError
  | x :: a => mret (foldl Z.min x a)
  end.

Definition amax (a : list Z) : Exc Z :=
  match a with
  | [] => raise ValueError
  | x :: a => mret (foldl Z.max x a)
  end.

(** [a.mean()], exact. *)
Definition mean (a : list Z) : Q :=
  Qmake (foldr Z.add 0 a) (Pos.of_nat (length a)).

Definition Qltb (x y : Q) : bool := negb (Qle_bool y x).

Definition data_inv (data : list Z) : list Z := map (fun d => 255 - d) data.

(** [range(start, stop, step)] for [step > 0]. *)
Fixpoint range_loop (fuel i stop step : nat) : list nat :=
  match fuel with
  | O => []
  | S fuel => if (i <? stop)%nat then i :: range_loop fuel (i + step) stop step else []
  end.

Definition range (start stop step : nat) : list nat :=
  range_loop (stop - start) start stop step.

(** Lines 93-124: the peaks, the polarity and the span of the burst. *)
Record Span := {
  sp_data : list Z;       (* [data] after the inversion, if any *)
  sp_peaks_hi : list nat;
  sp_peaks_lo : list nat;
  sp_x_first : nat;
  sp_x_last : nat;
}.

Definition peaks_hi_of (data : list Z) (PEAK_MAX : Z) : list nat :=
  find_peaks data ((87 # 100) * inject_Z PEAK_MAX).

Definition peaks_lo_of (data : list Z) (PEAK_MIN : Z) : list nat :=
  find_peaks (data_inv data) ((87 # 100) * inject_Z (255 - PEAK_MIN)).

Definition burst_span (data : list Z) : Exc Span :=
  PEAK_MIN ← amin data;
  PEAK_MAX ← amax data;
  let peaks_hi := peaks_hi_of data PEAK_MAX in
  let peaks_lo := peaks_lo_of data PEAK_MIN in
  hi0 ← index_first peaks_hi;
  lo0 ← index_first peaks_lo;
  let '(data, peaks_hi, peaks_lo) :=
    if (hi0 <? lo0)%nat then (data_inv data, peaks_lo, peaks_hi)
    else (data, peaks_hi, peaks_lo) in
  hi0 ← index_first peaks_hi;
  lo0 ← index_first peaks_lo;
  hi1 ← index_last peaks_hi;
  lo1 ← index_last peaks_lo;
  mret {| sp_data := data; sp_peaks_hi := peaks_hi; sp_peaks_lo := peaks_lo;
          sp_x_first := Nat.min hi0 lo0; sp_x_last := Nat.max hi1 lo1 |}.

(** Lines 126-133: symbol to bit mapping.  [peaks] is the debug list of the
    source: the indices at which a symbol was decided. *)
Fixpoint symbol_loop (data : list Z) (MEAN : Q) (idx : list nat)
    (bits : list bool) (peaks : list nat) : Exc (list bool * list nat) :=
  match idx with
  | [] => mret (bits, peaks)
  | i :: idx =>
      y ← getitem data i;
      symbol_loop data MEAN idx (bits ++ [Qltb (inject_Z y) MEAN]) (peaks ++ [i])
  end.

Definition symbol_bits (data : list Z) : Exc (list bool * list nat) :=
  let MEAN := mean data in
  sp ← burst_span data;
  symbol_loop (sp_data sp) MEAN
    (range (sp_x_first sp) (sp_x_last sp) (Z.to_nat SAMPLES_PER_SYMBOL)) [] [].

(** Lines 142-146: the start-of-frame bit is removed, the rest is packed. *)
Definition demodulate (data : list Z) : Exc (list Z) :=
  '(bits, _) ← symbol_bits data;
  let bits := drop 1 bits in
  packbits bits.

(** ** State of [main] *)

(** What a decoded message reports; a speed is the 16-bit value over 10. *)
Inductive Telemetry :=
  | MaxSpeed (val : Q)
  | Datetime (val0 val1 val2 val3 val4 val5 : Z)
  | Range (val0 val1 val2 : Z)
  | Speed (val : Q)
  | TripDistance (val : Z)
  | TotalDistance (val : Z)
  | Cadence (val : Z)
  | TripTime (val : Z)
  | AvgSpeed (val : Q)
  | AssistMode (val : Z)
  | WalkMode (val : Z)
  | Switch (str0 str1 : string)
  | Battery (val : Z)
  | Unknown (packet : list Z).

(** A line of the output, without its time stamp.  A [demod] line of a
    frame of 8 bytes or more ends with the frame type, the counter and the
    reserved bit; the dumps it shows are functions of [data_frame]. *)
Inductive Line :=
  | Constant (name : string) (value : Z)
  | DemodLine (dev_id : Z) (crc_text : string) (data_frame : list Z)
      (header : option (string * Z * Z))
  | PacketLine (key : Z) (packet : list Z)
  | DecodLine (key : Z) (t : Telemetry)
  | TotalMsgCount (count_msg : Z)
  | CrcErrorMsgCount (count_crc_err : Z).

Record State := {
  count_msg : Z;
  count_crc_err : Z;
  data_packets : gmap Z (list Z);
  (* locals that outlive an iteration, [None] while unbound *)
  frame_type_str : option string;
  counter : option Z;
  reserved : option Z;
  str1 : option string;
  stdout : list Line;
}.

Definition set_count_msg (n : Z) (st : State) : State :=
  {| count_msg := n; count_crc_err := count_crc_err st;
     data_packets := data_packets st; frame_type_str := frame_type_str st;
     counter := counter st; reserved := reserved st; str1 := str1 st;
     stdout := stdout st |}.

Definition set_count_crc_err (n : Z) (st : State) : State :=
  {| count_msg := count_msg st; count_crc_err := n;
     data_packets := data_packets st; frame_type_str := frame_type_str st;
     counter := counter st; reserved := reserved st; str1 := str1 st;
     stdout := stdout st |}.

Definition set_data_packets (d : gmap Z (list Z)) (st : State) : State :=
  {| count_msg := count_msg st; count_crc_err := count_crc_err st;
     data_packets := d; frame_type_str := frame_type_str st;
     counter := counter st; reserved := reserved st; str1 := str1 st;
     stdout := stdout st |}.

Definition set_header (s : string) (c r : Z) (st : State) : State :=
  {| count_msg := count_msg st; count_crc_err := count_crc_err st;
     data_packets := data_packets st; frame_type_str := Some s;
     counter := Some c; reserved := Some r; str1 := str1 st;
     stdout := stdout st |}.

Definition set_str1 (s : string) (st : State) : State :=
  {| count_msg := count_msg st; count_crc_err := count_crc_err st;
     data_packets := data_packets st; frame_type_str := frame_type_str st;
     counter := counter st; reserved := reserved st; str1 := Some s;
     stdout := stdout st |}.

Definition print (l : Line) (st : State) : State :=
  {| count_msg := count_msg st; count_crc_err := count_crc_err st;
     data_packets := data_packets st; frame_type_str := frame_type_str st;
     counter := counter st; reserved := reserved st; str1 := str1 st;
     stdout := stdout st ++ [l] |}.

(** The state and error monad of the loop body: the state survives an
    exception (what was printed stays printed). *)
Definition M (A : Type) : Type := State -> Exc A * State.

#[export] Instance M_ret : MRet M := fun _ x st => (inr x, st).
#[export] Instance M_bind : MBind M := fun _ _ f m st =>
  match m st with
  | (inl e, st) => (inl e, st)
  | (inr x, st) => f x st
  end.

Definition get {A} (f : State -> A) : M A := fun st => (inr (f st), st).
Definition modify (f : State -> State) : M unit := fun st => (inr tt, f st).
Definition lift {A} (m : Exc A) : M A := fun st => (m, st).

(** Reading a local: [UnboundLocalError] while no iteration assigned it. *)
Definition local {A} (f : State -> option A) : M A := fun st =>
  match f st with
  | None => (raise UnboundLocalError, st)
  | Some x => (inr x, st)
  end.

(** [d[key]]: [KeyError] when the key is absent. *)
Definition packet (key : Z) : M (list Z) := fun st =>
  match data_packets st !! key with
  | None => (raise KeyError, st)
  | Some p => (inr p, st)
  end.

(** ** Frame validator and parser *)

Definition crc_func : list Z -> Z := mkCrcFun 0x107 0x6f.

(** [a[:-1]] and [a[-1]] of a non-empty array. *)
Definition but_last (a : list Z) : list Z := take (length a - 1) a.
Definition last_byte (a : list Z) : Z := default 0 (last a).

(** Lines 152-159: the new [crc_text] and [count_crc_err]. *)
Definition check_crc (data_frame : list Z) (count_crc_err : Z) : string * Z :=
  if (length data_frame <=? 3)%nat then ("N/A", count_crc_err)
  else if crc_func (but_last data_frame) =? last_byte data_frame then ("OK ", count_crc_err)
  else ("ERR", count_crc_err + 1).

(** Lines 161-178.  [dev_id] is [False] ([None] here) or an integer. *)
Definition resolve_dev_id (data_frame : list Z) : option Z :=
  match data_frame with
  | b0 :: b1 :: b2 :: _ =>
      if b0 =? 0xcc then
        if b1 =? 0x40 then Some (Z.land (Z.shiftr b2 0) 0x3f)
        else if negb (Z.shiftr (Z.land b1 0x80) 7 =? 0)
        then Some (Z.land (Z.shiftr b1 0) 0x3f)
        else None
      else if b0 =? 0xce then Some (Z.land (Z.shiftr b1 0) 0x3f)
      else None
  | _ => None
  end.

(** Truth value of [dev_id] and of [key]: [False], [None] and 0 are false. *)
Definition truthy (v : option Z) : bool :=
  match v with
  | Some n => negb (n =? 0)
  | None => false
  end.

(** The integer a format of [dev_id] shows ([False] shows as 0). *)
Definition int_of (v : option Z) : Z := default 0 v.

(** ** Message reassembler *)

(** [frame_type = (data_frame[3] >> 6) & 0x03]. *)
Definition frame_type_of (data_frame : list Z) : Z :=
  Z.land (Z.shiftr (at_ data_frame 3) 6) 0x03.

(** Lines 180-212.  The result is [dev_id_data_packet_complete]. *)
Definition combine (dev_id : option Z) (data_frame : list Z) (st : State)
    : option Z * State :=
  if truthy dev_id && (length data_frame =? 8)%nat then
    let key := int_of dev_id in
    let frame_type := frame_type_of data_frame in
    let reserved := Z.land (Z.shiftr (at_ data_frame 3) 5) 0x01 in
    let counter := Z.land (Z.shiftr (at_ data_frame 3) 0) 0x1f in
    if frame_type =? 0 then
      (* Consecutive Frame (CF) *)
      let st := set_header "CF" counter reserved st in
      match data_packets st !! key with
      | Some p =>
          (None, set_data_packets (<[key := p ++ slice 4 7 data_frame]> (data_packets st)) st)
      | None => (None, st)
      end
    else if frame_type =? 1 then
      (* Last Frame (LF) *)
      let st := set_header "LF" counter reserved st in
      match data_packets st !! key with
      | Some p =>
          (Some key, set_data_packets (<[key := p ++ slice 4 7 data_frame]> (data_packets st)) st)
      | None => (None, st)
      end
    else if frame_type =? 2 then
      (* First Frame (FF) *)
      let st := set_header "FF" counter reserved st in
      (None, set_data_packets (<[key := slice 4 7 data_frame]> (data_packets st)) st)
    else
      (* Single Frame (SF) *)
      let st := set_header "SF" counter reserved st in
      (Some key, set_data_packets (<[key := slice 4 7 data_frame]> (data_packets st)) st)
  else (None, st).

(** ** Frame log *)

Definition array_equal (a b : list Z) : bool := bool_decide (a = b).

(** Line 215: [any(np.array_equal(data_frame[:3], msg) for msg in MSG_FILTER)]. *)
Definition filtered (data_frame : list Z) : bool :=
  existsb (array_equal (take 3 data_frame)) MSG_FILTER.

(** Lines 214-244. *)
Definition print_frame (dev_id : option Z) (crc_text : string)
    (data_frame : list Z) : M unit :=
  if negb (filtered data_frame) then
    if (length data_frame <? 8)%nat then
      modify (print (DemodLine (int_of dev_id) crc_text data_frame None))
    else
      s ← local frame_type_str;
      c ← local counter;
      r ← local reserved;
      modify (print (DemodLine (int_of dev_id) crc_text data_frame (Some (s, c, r))))
  else mret tt.

(** ** Protocol decoder *)

(** [int.from_bytes(a, byteorder=..., signed=False)]. *)
Definition from_bytes_big (a : list Z) : Z :=
  foldl (fun acc b => Z.lor (Z.shiftl acc 8) b) 0 a.

Definition from_bytes_little (a : list Z) : Z :=
  foldr (fun b acc => Z.lor b (Z.shiftl acc 8)) 0 a.

(** [print(DECODER_LOG_HDR, ...)] then [del data_packets[key]]. *)
Definition report (key : Z) (t : Telemetry) : M unit :=
  modify (print (DecodLine key t));;
  modify (fun st => set_data_packets (delete key (data_packets st)) st).

Definition cmd_of (key : Z) (p : list Z) : Z :=
  Z.lor (Z.shiftl key 16) (from_bytes_big (slice 0 2 p)).

(** Lines 246-434.  In the five cases of a static frame the source leaves
    the iteration ([continue]) when the packet is the expected one and
    falls out of the [match] otherwise: nothing follows either way. *)
Definition decoder (complete : option Z) : M unit :=
  if truthy complete then
    let key := int_of complete in
    p ← packet key;
    let cmd := cmd_of key p in
    modify (print (PacketLine key p));;
    if cmd =? 0x0d4a0c then
      if array_equal p [0x4a; 0x0c; 0xff] then mret tt else mret tt
    else if cmd =? 0x1a0102 then
      if array_equal p [0x01; 0x02; 0xff] then mret tt else mret tt
    else if cmd =? 0x260102 then
      if array_equal p [0x01; 0x02; 0xff] then mret tt else mret tt
    else if cmd =? 0x3f0200 then
      if array_equal p [0x02; 0x00; 0x40] then mret tt else mret tt
    else if cmd =? 0x3f0208 then
      if array_equal p [0x02; 0x08; 0x01] then mret tt else mret tt
    else if (cmd =? 0x0d1638) || (cmd =? 0x1a163a) then
      report key (MaxSpeed (Qmake (from_bytes_little (slice 2 4 p)) 10))
    else if (cmd =? 0x3f4a00) || (cmd =? 0x1a4a0e) then
      report key (Datetime (from_bytes_little (slice 2 3 p) + 2000)
                           (from_bytes_little (slice 3 4 p))
                           (from_bytes_little (slice 4 5 p))
                           (from_bytes_little (slice 5 6 p))
                           (from_bytes_little (slice 6 7 p))
                           (from_bytes_little (slice 7 8 p)))
    else if (cmd =? 0x0d1620) || (cmd =? 0x1a1622) then
      report key (Range (from_bytes_little (slice 2 4 p))
                        (from_bytes_little (slice 4 6 p))
                        (from_bytes_little (slice 6 8 p)))
    else if (cmd =? 0x0d3c08) || (cmd =? 0x1a3c0a) then
      report key (Speed (Qmake (from_bytes_little (slice 2 4 p)) 10))
    else if (cmd =? 0x0d4808) || (cmd =? 0x1a480a) then
      report key (TripDistance (from_bytes_little (slice 2 6 p)))
    else if (cmd =? 0x0d4828) || (cmd =? 0x1a482a) then
      report key (TotalDistance (from_bytes_little (slice 2 6 p)))
    else if (cmd =? 0x0d3848) || (cmd =? 0x1a384a) then
      report key (Cadence (from_bytes_little (slice 4 5 p)))
    else if (cmd =? 0x0d1628) || (cmd =? 0x1a162a) then
      report key (TripTime (from_bytes_little (slice 2 6 p)))
    else if (cmd =? 0x0d1630) || (cmd =? 0x1a1632) then
      report key (AvgSpeed (Qmake (from_bytes_little (slice 2 4 p)) 10))
    else if (cmd =? 0x0d1600) || (cmd =? 0x1a1602) then
      report key (AssistMode (from_bytes_little (slice 2 4 p)))
    else if (cmd =? 0x0d1660) || (cmd =? 0x1a1662) || (cmd =? 0x131660) || (cmd =? 0x261662) then
      report key (WalkMode (from_bytes_little (slice 2 3 p)))
    else if (cmd =? 0x0d0400) || (cmd =? 0x260400) then
      b ← lift (getitem p 2);
      let str0 :=
        if negb (Z.land (Z.shiftr b 0) 0x01 =? 0) then "lower" else "upper" in
      let sel := Z.land (Z.shiftr b 4) 0x03 in
      (if sel =? 0 then modify (set_str1 "pressed")
       else if sel =? 1 then modify (set_str1 "released from hold")
       else if sel =? 2 then modify (set_str1 "keep hold down")
       else mret tt);;
      s1 ← local str1;
      report key (Switch str0 s1)
    else if (cmd =? 0x0d2640) || (cmd =? 0x1a2642) then
      report key (Battery (from_bytes_little (slice 2 3 p)))
    else
      report key (Unknown p)
  else mret tt.

(** ** The loop *)

(** Lines 180-434: what follows the resolution of [dev_id]. *)
Definition frame_body (dev_id : option Z) (crc_text : string)
    (data_frame : list Z) : M unit :=
  complete ← (fun st => let '(c, st) := combine dev_id data_frame st in (inr c, st));
  print_frame dev_id crc_text data_frame;;
  decoder complete.

(** Lines 147-434: everything [main] does with one demodulated frame. *)
Definition process_frame (data_frame : list Z) : M unit :=
  modify (fun st => set_count_msg (count_msg st + 1) st);;
  crc_text ← (fun st =>
    let '(crc_text, n) := check_crc data_frame (count_crc_err st) in
    (inr crc_text, set_count_crc_err n st));
  let dev_id := resolve_dev_id data_frame in
  frame_body dev_id crc_text data_frame.

(** Lines 82-434: one accepted burst. *)
Definition process_burst (data : list Z) : M unit :=
  data_frame ← lift (demodulate data);
  process_frame data_frame.

(** [sys.stdin.buffer.read(32)] until the end of the input: chunks of 32
    bytes, the last one may be shorter; then the empty read. *)
Fixpoint read_chunks (fuel : nat) (stdin : list Z) : list (list Z) :=
  match fuel with
  | O => []
  | S fuel =>
      match stdin with
      | [] => []
      | _ => take 32 stdin :: read_chunks fuel (drop 32 stdin)
      end
  end.

Definition chunks (stdin : list Z) : list (list Z) :=
  read_chunks (length stdin) stdin.

(** Lines 70-72: the two totals, before [exit()]. *)
Definition summary : M unit :=
  n ← get count_msg;
  modify (print (TotalMsgCount n));;
  e ← get count_crc_err;
  modify (print (CrcErrorMsgCount e)).

(** Lines 62-80 around the body above.  [data] is the burst being
    collected; an empty read, or the end of [bufs], is the end of the input:
    the two totals are printed and the program exits. *)
Fixpoint main_loop (bufs : list (list Z)) (data : list Z) : M unit :=
  match bufs with
  | [] => summary
  | buf :: bufs =>
      if (length buf =? 0)%nat then summary
      else
        lo ← lift (amin buf);
        hi ← lift (amax buf);
        if (lo <? NOISE_THRESHOLD_MIN) || (NOISE_THRESHOLD_MAX <? hi) then
          main_loop bufs (data ++ buf)
        else if (ADC_SAMPLES_FOR_3_BYTE_MSG <=? Z.of_nat (length data))
                && (Z.of_nat (length data) <? ADC_SAMPLES_FOR_TOO_LONG_MSG) then
          process_burst data;;
          main_loop bufs []
        else
          main_loop bufs []
  end.

Definition init : State :=
  {| count_msg := 0; count_crc_err := 0; data_packets := ∅;
     frame_type_str := None; counter := None; reserved := None; str1 := None;
     stdout := [] |}.

Definition main (stdin : list Z) : Exc unit * State :=
  (modify (print (Constant "ADC_SAMPLE_RATE" ADC_SAMPLE_RATE));;
   modify (print (Constant "DEMOD_SAMPLE_RATE" DEMOD_SAMPLE_RATE));;
   modify (print (Constant "BPSK_SYMBOL_RATE" BPSK_SYMBOL_RATE));;
   modify (print (Constant "SAMPLES_PER_SYMBOL" SAMPLES_PER_SYMBOL));;
   modify (print (Constant "ADC_SAMPLES_FOR_3_BYTE_MSG" ADC_SAMPLES_FOR_3_BYTE_MSG));;
   modify (print (Constant "ADC_SAMPLES_FOR_TOO_LONG_MSG" ADC_SAMPLES_FOR_TOO_LONG_MSG));;
   main_loop (chunks stdin) []) init.

(** ** The checksum in the words of the specification

    An 8-bit register that starts at 0x6f; each byte is xored into it and
    the register is shifted left eight times, most significant bit first,
    the polynomial 0x107 being xored in whenever a one is shifted out; the
    register is the result (no output xor). *)

Definition crc8_shift (crc : Z) : Z :=
  if Z.testbit crc 7
  then Z.land (Z.lxor (Z.shiftl crc 1) 0x107) 0xFF
  else Z.land (Z.shiftl crc 1) 0xFF.

Definition crc8_byte (crc b : Z) : Z := Nat.iter 8 crc8_shift (Z.lxor crc b).

Definition crc8_spec (data : list Z) : Z := foldl crc8_byte 0x6f data.

Definition is_byte (b : Z) : Prop := 0 <= b < 256.

(** ** Views of the state *)

(** [preserves f m]: running [m] does not change the view [f] of the state,
    whether [m] ends with a value or with an exception. *)
Definition preserves {A B} (f : State -> B) (m : M A) : Prop :=
  forall st, f (snd (m st)) = f st.

(** The fields of the header that a frame log shows. *)
Definition header (st : State) : option string * option Z * option Z :=
  (frame_type_str st, counter st, reserved st).

Definition is_demod (l : Line) : bool :=
  match l with
  | DemodLine _ _ _ _ => true
  | _ => false
  end.

(** The [demod] lines printed so far. *)
Definition demod_lines (st : State) : list Line :=
  List.filter is_demod (stdout st).

(** ** The packing in the words of the specification *)

(** Bit [k] of a bit list, 0 past its end. *)
Definition bit_at (bits : list bool) (k : nat) : Z :=
  bit (default false (bits !! k)).

(** Byte [j] of a bit list, most significant bit first, a short last byte
    completed with zero bits. *)
Definition byte_msb_first (bits : list bool) (j : nat) : Z :=
  128 * bit_at bits (8 * j + 0) + 64 * bit_at bits (8 * j + 1)
  + 32 * bit_at bits (8 * j + 2) + 16 * bit_at bits (8 * j + 3)
  + 8 * bit_at bits (8 * j + 4) + 4 * bit_at bits (8 * j + 5)
  + 2 * bit_at bits (8 * j + 6) + bit_at bits (8 * j + 7).

(** ** Keys of the static frames *)

(** The five keys whose case in the decoder only compares the packet with
    a constant. *)
Definition static_keys : list Z :=
  [0x0d4a0c; 0x1a0102; 0x260102; 0x3f0200; 0x3f0208].

(** ** The burst extractor seen from outside *)

(** A chunk with a sample under 119 or over 136. *)
Definition is_active (buf : list Z) : bool :=
  existsb (fun b => (b <? NOISE_THRESHOLD_MIN) || (NOISE_THRESHOLD_MAX <? b)) buf.

Definition in_window (data : list Z) : bool :=
  (ADC_SAMPLES_FOR_3_BYTE_MSG <=? Z.of_nat (length data))
  && (Z.of_nat (length data) <? ADC_SAMPLES_FOR_TOO_LONG_MSG).

(** The bursts that the loop hands to the demodulator, in order, when no
    exception stops it: the control flow of lines 62-80 alone. *)
Fixpoint accepted_bursts (bufs : list (list Z)) (data : list Z) : list (list Z) :=
  match bufs with
  | [] => []
  | buf :: bufs =>
      if (length buf =? 0)%nat then []
      else if is_active buf then accepted_bursts bufs (data ++ buf)
      else if in_window data then data :: accepted_bursts bufs []
      else accepted_bursts bufs []
  end.

(** Every chunk but the last one is a full read of 32 bytes. *)
Fixpoint full_reads (bufs : list (list Z)) : Prop :=
  match bufs with
  | [] => True
  | buf :: bufs => (bufs <> [] -> length buf = 32%nat) /\ full_reads bufs
  end.

(** The loop body run on a list of bursts, one after the other, until one
    raises; the two totals at the end. *)
Fixpoint run_bursts (bursts : list (list Z)) : M unit :=
  match bursts with
  | [] => summary
  | data :: bursts => process_burst data;; run_bursts bursts
  end.

(** The state in which [main] enters its loop: the six constants printed. *)
Definition started : State :=
  print (Constant "ADC_SAMPLES_FOR_TOO_LONG_MSG" ADC_SAMPLES_FOR_TOO_LONG_MSG)
    (print (Constant "ADC_SAMPLES_FOR_3_BYTE_MSG" ADC_SAMPLES_FOR_3_BYTE_MSG)
       (print (Constant "SAMPLES_PER_SYMBOL" SAMPLES_PER_SYMBOL)
          (print (Constant "BPSK_SYMBOL_RATE" BPSK_SYMBOL_RATE)
             (print (Constant "DEMOD_SAMPLE_RATE" DEMOD_SAMPLE_RATE)
                (print (Constant "ADC_SAMPLE_RATE" ADC_SAMPLE_RATE) init))))).

(** ** The decoder seen from outside *)

(** The two keys of the switch message. *)
Definition switch_keys : list Z := [0x0d0400; 0x260400].

(** The keys that have a case in the decoder. *)
Definition known_keys : list Z :=
  static_keys ++
  [0x0d1638; 0x1a163a; 0x3f4a00; 0x1a4a0e; 0x0d1620; 0x1a1622;
   0x0d3c08; 0x1a3c0a; 0x0d4808; 0x1a480a; 0x0d4828; 0x1a482a;
   0x0d3848; 0x1a384a; 0x0d1628; 0x1a162a; 0x0d1630; 0x1a1632;
   0x0d1600; 0x1a1602; 0x0d1660; 0x1a1662; 0x131660; 0x261662;
   0x0d0400; 0x260400; 0x0d2640; 0x1a2642].

(** [del data_packets[key]] *)
Definition del (key : Z) (st : State) : State :=
  set_data_packets (delete key (data_packets st)) st.

(** What [data_packets] holds at any time: entries for device ids 1 to 63
    only, each a payload of a positive multiple of 3 bytes. *)
Definition wf_packets (d : gmap Z (list Z)) : Prop :=
  forall k p, d !! k = Some p ->
    0 < k < 64 /\ (3 <= length p)%nat /\ (length p mod 3 = 0)%nat.

(** The label the switch message prints for the selector [(b >> 4) & 3]:
    one of three names, or for 3 the label the last switch message left in
    [str1], if any. *)
Definition switch_label (b : Z) (st : State) : option string :=
  let sel := Z.land (Z.shiftr b 4) 0x03 in
  if sel =? 0 then Some "pressed"
  else if sel =? 1 then Some "released from hold"
  else if sel =? 2 then Some "keep hold down"
  else str1 st.

(** The name of a frame type. *)
Definition frame_type_name (frame_type : Z) : string :=
  if frame_type =? 0 then "CF"
  else if frame_type =? 1 then "LF"
  else if frame_type =? 2 then "FF"
  else "SF".

(** The loop body, after the demodulator, on a sequence of frames. *)
Fixpoint process_frames (frames : list (list Z)) : M unit :=
  match frames with
  | [] => mret tt
  | data_frame :: frames => process_frame data_frame;; process_frames frames
  end.

(** A frame of 8 bytes of device [dev] with frame type [frame_type]. *)
Definition frame_of (dev frame_type : Z) (data_frame : list Z) : Prop :=
  length data_frame = 8%nat
  /\ resolve_dev_id data_frame = Some dev
  /\ frame_type_of data_frame = frame_type.

(** ** The frame log seen from outside *)

(** The three locals the log of a frame of 8 bytes or more reads are
    bound. *)
Definition header_bound (st : State) : bool :=
  match frame_type_str st, counter st, reserved st with
  | Some _, Some _, Some _ => true
  | _, _, _ => false
  end.

(** The frame log has what it prints: the frame is shorter than 8 bytes, or
    it goes through the reassembler (which binds the three locals), or an
    earlier frame left them bound. *)
Definition log_ready (data_frame : list Z) (st : State) : bool :=
  (length data_frame <? 8)%nat
  || (truthy (resolve_dev_id data_frame) && (length data_frame =? 8)%nat)
  || header_bound st.

(** ** Inputs used below *)

(** An accepted burst of 256 samples: a low peak at index 1, a high peak at
    index 35, flat at 200 elsewhere (mean 51055 / 256, about 199.4). *)
Definition burst2 : list Z :=
  [200; 0] ++ replicate 33 200 ++ [255] ++ replicate 220 200.

Definition span2 : Span :=
  {| sp_data := burst2; sp_peaks_hi := [35%nat]; sp_peaks_lo := [1%nat];
     sp_x_first := 1; sp_x_last := 35 |}.

(** The input of the failing run: 256 samples at full scale (eight active
    chunks and no peak, high or low), a quiet chunk, then [burst2] and a
    quiet chunk. *)
Definition flat_input : list Z :=
  replicate 256 255 ++ replicate 32 128 ++ burst2 ++ replicate 32 128.

(** * Proofs *)

(** ** What a block of the loop leaves alone *)

Section Preserves.
Context {B : Type} (f : State -> B).

Lemma preserves_ret {A} (x : A) : preserves f (mret x).
Proof. by intros st. Qed.

Lemma preserves_bind {A C} (m : M A) (k : A -> M C) :
  preserves f m -> (forall x, preserves f (k x)) -> preserves f (m ≫= k).
Proof.
  intros Hm Hk st. unfold mbind, M_bind.
  specialize (Hm st). destruct (m st) as [[e|x] st1]; cbn in *; [done|].
  by rewrite Hk.
Qed.

Lemma preserves_get {A} (g : State -> A) : preserves f (get g).
Proof. by intros st. Qed.

Lemma preserves_lift {A} (m : Exc A) : preserves f (lift m).
Proof. by intros st. Qed.

Lemma preserves_local {A} (g : State -> option A) : preserves f (local g).
Proof. intros st. unfold local. by destruct (g st). Qed.

Lemma preserves_packet (key : Z) : preserves f (packet key).
Proof. intros st. unfold packet. by destruct (data_packets st !! key). Qed.

Lemma preserves_modify (g : State -> State) :
  (forall st, f (g st) = f st) -> preserves f (modify g).
Proof. intros H st. apply H. Qed.
End Preserves.

Ltac preserves_step :=
  first
    [ apply preserves_ret
    | apply preserves_get
    | apply preserves_lift
    | apply preserves_local
    | apply preserves_packet
    | apply preserves_bind; [|intros ?]
    | match goal with
      | |- preserves _ (if ?b then _ else _) => destruct b
      end ].

(** The decoder prints packet and telemetry lines, sets [str1] and deletes
    from [data_packets]; a view that none of these changes is preserved. *)
Lemma decoder_preserves {B} (f : State -> B) (complete : option Z) :
  (forall key p st, f (print (PacketLine key p) st) = f st) ->
  (forall key t st, f (print (DecodLine key t) st) = f st) ->
  (forall s st, f (set_str1 s st) = f st) ->
  (forall d st, f (set_data_packets d st) = f st) ->
  preserves f (decoder complete).
Proof.
  intros Hp Ht Hs Hd. unfold decoder, report. cbv zeta.
  repeat first
    [ preserves_step
    | apply preserves_modify; intros ?; first [apply Hp | apply Ht | apply Hs | apply Hd] ].
Qed.

(** The frame log prints one [demod] line at most. *)
Lemma print_frame_preserves {B} (f : State -> B) dev_id crc_text data_frame :
  (forall a b c d st, f (print (DemodLine a b c d) st) = f st) ->
  preserves f (print_frame dev_id crc_text data_frame).
Proof.
  intros Hp. unfold print_frame.
  repeat first [ preserves_step | apply preserves_modify; intros ?; apply Hp ].
Qed.

Lemma combine_preserves {B} (f : State -> B) dev_id data_frame st :
  (forall s c r st, f (set_header s c r st) = f st) ->
  (forall d st, f (set_data_packets d st) = f st) ->
  f (snd (combine dev_id data_frame st)) = f st.
Proof.
  intros Hh Hd. unfold combine.
  repeat match goal with
         | |- context [if ?b then _ else _] => destruct b
         | |- context [match ?o with Some _ => _ | None => _ end] => destruct o
         end; cbn [snd]; by rewrite ?Hd, ?Hh.
Qed.

Lemma frame_body_preserves {B} (f : State -> B) dev_id crc_text data_frame :
  (forall l st, f (print l st) = f st) ->
  (forall s st, f (set_str1 s st) = f st) ->
  (forall s c r st, f (set_header s c r st) = f st) ->
  (forall d st, f (set_data_packets d st) = f st) ->
  preserves f (frame_body dev_id crc_text data_frame).
Proof.
  intros Hp Hs Hh Hd. unfold frame_body.
  apply preserves_bind.
  { intros st. pose proof (combine_preserves f dev_id data_frame st Hh Hd) as H.
    by destruct (combine dev_id data_frame st). }
  intros complete. apply preserves_bind.
  { by apply print_frame_preserves. }
  intros _. by apply decoder_preserves.
Qed.

Lemma process_frame_count_msg (data_frame : list Z) (st : State) :
  count_msg (snd (process_frame data_frame st)) = count_msg st + 1.
Proof.
  unfold process_frame, mbind, M_bind, modify.
  destruct (check_crc data_frame _) as [crc_text n].
  by rewrite (frame_body_preserves count_msg).
Qed.

Lemma process_frame_count_crc_err (data_frame : list Z) (st : State) :
  count_crc_err (snd (process_frame data_frame st))
  = snd (check_crc data_frame (count_crc_err st)).
Proof.
  unfold process_frame, mbind, M_bind, modify. cbn [count_crc_err set_count_msg].
  destruct (check_crc data_frame _) as [crc_text n].
  by rewrite (frame_body_preserves count_crc_err).
Qed.

(** ** Checksum *)

Lemma is_byte_lxor (a b : Z) : is_byte a -> is_byte b -> is_byte (Z.lxor a b).
Proof.
  unfold is_byte. intros Ha Hb.
  assert (0 <= Z.lxor a b) by (apply Z.lxor_nonneg; lia).
  split; [done|].
  destruct (Z.eq_dec (Z.lxor a b) 0) as [->|Hne]; [lia|].
  apply (Z.log2_lt_pow2 _ 8); [lia|].
  pose proof (Z.log2_lxor a b ltac:(lia) ltac:(lia)) as Hl.
  assert (Z.log2 a < 8).
  { destruct (Z.eq_dec a 0) as [->|]; [done|]. apply Z.log2_lt_pow2; lia. }
  assert (Z.log2 b < 8).
  { destruct (Z.eq_dec b 0) as [->|]; [done|]. apply Z.log2_lt_pow2; lia. }
  lia.
Qed.

Lemma table_all :
  forallb (fun i => bool_decide
             (mkTable 0x107 !! i = Some (Nat.iter 8 crc8_shift (Z.of_nat i))
              /\ is_byte (Nat.iter 8 crc8_shift (Z.of_nat i))))
          (seq 0 256) = true.
Proof. vm_compute. reflexivity. Qed.

Lemma table_lookup (i : Z) :
  is_byte i ->
  mkTable 0x107 !! Z.to_nat i = Some (Nat.iter 8 crc8_shift i)
  /\ is_byte (Nat.iter 8 crc8_shift i).
Proof.
  intros Hi. pose proof table_all as H.
  rewrite forallb_forall in H.
  specialize (H (Z.to_nat i)).
  rewrite bool_decide_eq_true, Z2Nat.id in H by (unfold is_byte in Hi; lia).
  apply H, in_seq. unfold is_byte in Hi. lia.
Qed.

Lemma crc_fold_spec (data : list Z) (crc : Z) :
  is_byte crc -> Forall is_byte data ->
  foldl (fun crc x => default 0 (mkTable 0x107 !! Z.to_nat (Z.lxor x crc))) crc data
  = foldl crc8_byte crc data.
Proof.
  intros Hc Hd. revert crc Hc.
  induction Hd as [|x data Hx Hd IH]; intros crc Hc; [done|].
  cbn [foldl].
  destruct (table_lookup (Z.lxor x crc)) as [Ht Hb]; [by apply is_byte_lxor|].
  rewrite Ht. cbn [default from_option].
  unfold crc8_byte at 2. rewrite (Z.lxor_comm crc x).
  by apply IH.
Qed.

Lemma crc_func_spec (data : list Z) :
  Forall is_byte data -> crc_func data = crc8_spec data.
Proof.
  intros Hd. unfold crc_func, mkCrcFun, crc8_spec.
  change (Z.land 0x6f 0xFF) with 0x6f.
  apply crc_fold_spec; [unfold is_byte; lia | done].
Qed.

Lemma but_last_snoc (a : list Z) (c : Z) : but_last (a ++ [c]) = a.
Proof.
  unfold but_last. rewrite length_app. cbn [length].
  replace (length a + 1 - 1)%nat with (length a) by lia.
  by rewrite take_app_length.
Qed.

Lemma last_byte_snoc (a : list Z) (c : Z) : last_byte (a ++ [c]) = c.
Proof. unfold last_byte. by rewrite last_snoc. Qed.

Lemma check_crc_snoc (msg : list Z) (c n : Z) :
  Forall is_byte msg -> (3 <= length msg)%nat ->
  check_crc (msg ++ [c]) n
  = if crc8_spec msg =? c then ("OK ", n) else ("ERR", n + 1).
Proof.
  intros Hb Hl. unfold check_crc. rewrite length_app. cbn [length].
  rewrite (proj2 (Nat.leb_gt _ _)) by lia.
  by rewrite but_last_snoc, last_byte_snoc, crc_func_spec.
Qed.

(** C4.  A frame of at most 3 bytes is not checked ([N/A], counter as it
    was).  A longer frame, written as its bytes but the last [msg] followed
    by its last byte [c], is [OK ] exactly when the CRC of the specification
    (polynomial 0x107, initial value 0x6f, no output xor, most significant
    bit first) over [msg] equals [c], with the counter of errors as it was;
    otherwise it is [ERR] and the counter is one more.  The counter the
    frame leaves behind is the one of [check_crc]. *)
Theorem check_crc_classifies (data_frame : list Z) (st : State) :
  Forall is_byte data_frame ->
  let n := count_crc_err st in
  count_crc_err (snd (process_frame data_frame st)) = snd (check_crc data_frame n)
  /\ ((length data_frame <= 3)%nat -> check_crc data_frame n = ("N/A", n))
  /\ (forall msg c, data_frame = msg ++ [c] -> (3 < length data_frame)%nat ->
      (crc8_spec msg = c -> check_crc data_frame n = ("OK ", n))
      /\ (crc8_spec msg <> c -> check_crc data_frame n = ("ERR", n + 1))
      /\ (fst (check_crc data_frame n) = "OK " <-> crc8_spec msg = c)).
Proof.
  intros Hb n. split; [apply process_frame_count_crc_err|]. split.
  - intros Hl. unfold check_crc. by rewrite (proj2 (Nat.leb_le _ _) Hl).
  - intros msg c -> Hl. apply Forall_app in Hb as [Hb _].
    rewrite length_app in Hl. cbn [length] in Hl.
    rewrite check_crc_snoc by (done || lia).
    destruct (Z.eqb_spec (crc8_spec msg) c) as [He|Hne]; by repeat split.
Qed.

(** The frame [cc 40 0d 8d] carries its checksum: [OK ], no error counted.
    With [8c] as the last byte it is [ERR], one more error. *)
Lemma check_crc_classifies_witness :
  check_crc [0xcc; 0x40; 0x0d; 0x8d] 0 = ("OK ", 0)
  /\ count_crc_err (snd (process_frame [0xcc; 0x40; 0x0d; 0x8c] init)) = 1
  /\ check_crc [0xcc; 0x40; 0x0d; 0x8c] 0 = ("ERR", 1).
Proof.
  assert (Hok : Forall is_byte [0xcc; 0x40; 0x0d; 0x8d]).
  { unfold is_byte. repeat constructor; lia. }
  assert (Herr : Forall is_byte [0xcc; 0x40; 0x0d; 0x8c]).
  { unfold is_byte. repeat constructor; lia. }
  destruct (check_crc_classifies [0xcc; 0x40; 0x0d; 0x8d] init Hok) as (_ & _ & H1).
  destruct (H1 [0xcc; 0x40; 0x0d] 0x8d eq_refl ltac:(cbn; lia)) as (Hy & _ & _).
  destruct (check_crc_classifies [0xcc; 0x40; 0x0d; 0x8c] init Herr) as (Hc & _ & H2).
  destruct (H2 [0xcc; 0x40; 0x0d] 0x8c eq_refl ltac:(cbn; lia)) as (_ & Hn & _).
  assert (He : check_crc [0xcc; 0x40; 0x0d; 0x8c] 0 = ("ERR", 1)).
  { apply Hn. vm_compute. discriminate. }
  split; [apply Hy; vm_compute; reflexivity|]. split; [|exact He].
  rewrite Hc. change (count_crc_err init) with 0. by rewrite He.
Defined.

(** ** Device id *)

(** [(b & 0x80) >> 7] is bit 7 of [b]. *)
Lemma high_bit (b : Z) :
  negb (Z.shiftr (Z.land b 0x80) 7 =? 0) = Z.testbit b 7.
Proof.
  assert (H : Z.shiftr (Z.land b 0x80) 7 = Z.b2z (Z.testbit b 7)).
  { apply Z.bits_inj'. intros n Hn.
    rewrite Z.shiftr_spec, Z.land_spec by lia.
    destruct (Z.eq_dec n 0) as [->|Hne].
    - change (Z.testbit 128 (0 + 7)) with true.
      change (0 + 7) with 7.
      rewrite andb_true_r. by destruct (Z.testbit b 7).
    - replace (Z.testbit 128 (n + 7)) with false.
      + rewrite andb_false_r. destruct (Z.testbit b 7); cbn [Z.b2z].
        * symmetry. apply (Z.bits_above_log2 1 n); cbn; lia.
        * by rewrite Z.bits_0.
      + symmetry. apply (Z.bits_above_log2 128 (n + 7)); cbn; lia. }
  rewrite H. by destruct (Z.testbit b 7).
Qed.

(** C5.  On a frame of three bytes or more the device id is decided by the
    first two bytes, the rules being tried in this order: 0xcc 0x40 gives
    the low six bits of the third byte; 0xcc and a second byte with its high
    bit set gives the low six bits of the second byte; 0xce gives the low
    six bits of the second byte; anything else leaves the id unresolved
    ([None]).  The bytes after the third play no part, and a frame of fewer
    than three bytes is never resolved. *)
Theorem resolve_dev_id_rules (b0 b1 b2 : Z) (rest : list Z) :
  resolve_dev_id (b0 :: b1 :: b2 :: rest) =
    (if (b0 =? 0xcc) && (b1 =? 0x40) then Some (Z.land b2 0x3f)
     else if (b0 =? 0xcc) && Z.testbit b1 7 then Some (Z.land b1 0x3f)
     else if b0 =? 0xce then Some (Z.land b1 0x3f)
     else None)
  /\ resolve_dev_id [] = None
  /\ resolve_dev_id [b0] = None
  /\ resolve_dev_id [b0; b1] = None.
Proof.
  repeat split. unfold resolve_dev_id.
  rewrite high_bit, !Z.shiftr_0_r.
  destruct (b0 =? 0xcc) eqn:E0, (b1 =? 0x40), (Z.testbit b1 7); cbn; try done.
  all: apply Z.eqb_eq in E0; subst b0; done.
Qed.

(** ** Reassembly *)

(** When no message completes, the frame log is all that follows. *)
Lemma frame_body_no_complete {B} (f : State -> B) dev_id crc_text data_frame st :
  (forall l st, f (print l st) = f st) ->
  fst (combine dev_id data_frame st) = None ->
  f (snd (frame_body dev_id crc_text data_frame st))
  = f (snd (combine dev_id data_frame st)).
Proof.
  intros Hp Hc. unfold frame_body, mbind, M_bind.
  destruct (combine dev_id data_frame st) as [c st1]. cbn in Hc. subst c. cbn [snd].
  pose proof (print_frame_preserves f dev_id crc_text data_frame
                (fun a b c d => Hp _) st1) as H.
  destruct (print_frame dev_id crc_text data_frame st1) as [[e|[]] st2]; cbn in *; done.
Qed.

Lemma process_frame_no_complete {B} (f : State -> B) data_frame st :
  (forall l st, f (print l st) = f st) ->
  (forall n st, f (set_count_msg n st) = f st) ->
  (forall n st, f (set_count_crc_err n st) = f st) ->
  (forall st1, data_packets st1 = data_packets st ->
     fst (combine (resolve_dev_id data_frame) data_frame st1) = None
     /\ f (snd (combine (resolve_dev_id data_frame) data_frame st1)) = f st1) ->
  f (snd (process_frame data_frame st)) = f st.
Proof.
  intros Hp Hm He Hc. unfold process_frame, mbind, M_bind, modify.
  destruct (check_crc data_frame _) as [crc_text n].
  destruct (Hc (set_count_crc_err n (set_count_msg (count_msg st + 1) st)))
    as [Hn Hf]; [done|].
  by rewrite frame_body_no_complete, Hf, He, Hm.
Qed.

(** A consecutive or last frame for a device without an open message. *)
Lemma combine_orphan (data_frame : list Z) (dev : Z) (st : State) :
  (frame_type_of data_frame = 0 \/ frame_type_of data_frame = 1) ->
  data_packets st !! dev = None ->
  fst (combine (Some dev) data_frame st) = None
  /\ data_packets (snd (combine (Some dev) data_frame st)) = data_packets st.
Proof.
  intros Ht Hd. unfold combine. cbv zeta.
  destruct (truthy (Some dev) && (length data_frame =? 8)%nat); [|done].
  change (int_of (Some dev)) with dev. cbn [set_header data_packets].
  destruct Ht as [-> | ->]; cbn [Z.eqb Pos.eqb]; by rewrite Hd.
Qed.

(** C6.  A frame of 8 bytes with a resolved device id that is a consecutive
    frame (type 0) or a last frame (type 1), for a device that has no open
    message, changes nothing in [data_packets]: no entry is made for the
    device, and no message completes. *)
Theorem orphan_frame_dropped (data_frame : list Z) (dev : Z) (st : State) :
  length data_frame = 8%nat ->
  resolve_dev_id data_frame = Some dev ->
  frame_type_of data_frame = 0 \/ frame_type_of data_frame = 1 ->
  data_packets st !! dev = None ->
  fst (combine (Some dev) data_frame st) = None
  /\ data_packets (snd (process_frame data_frame st)) = data_packets st
  /\ data_packets (snd (process_frame data_frame st)) !! dev = None.
Proof.
  intros Hl Hr Ht Hd.
  split; [by apply combine_orphan|].
  assert (data_packets (snd (process_frame data_frame st)) = data_packets st) as ->.
  { apply (process_frame_no_complete data_packets); try done.
    intros st1 Hst. rewrite Hr. apply combine_orphan; [done|].
    by rewrite Hst. }
  done.
Qed.

(** A consecutive frame of device 0x0d on the empty mapping. *)
Lemma orphan_frame_dropped_witness :
  let data_frame := [0xcc; 0x40; 0x0d; 0x05; 0x01; 0x02; 0x03; 0x00] in
  fst (combine (Some 0x0d) data_frame init) = None
  /\ data_packets (snd (process_frame data_frame init)) = data_packets init
  /\ data_packets (snd (process_frame data_frame init)) !! 0x0d = None.
Proof.
  intros data_frame.
  apply (orphan_frame_dropped data_frame 0x0d init);
    [reflexivity | reflexivity | left; reflexivity | reflexivity].
Defined.

(** C9.  A frame of 8 bytes whose header resolves to device id 0 is handled
    exactly as a frame with an unresolved device id: the fields of the header
    are not extracted, no reassembly step is made ([data_packets] stays as it
    is) and no message completes. *)
Theorem dev_id_zero_as_unresolved (data_frame : list Z) (crc_text : string)
    (st : State) :
  length data_frame = 8%nat ->
  resolve_dev_id data_frame = Some 0 ->
  combine (Some 0) data_frame st = (None, st)
  /\ frame_body (Some 0) crc_text data_frame st = frame_body None crc_text data_frame st
  /\ data_packets (snd (process_frame data_frame st)) = data_packets st
  /\ header (snd (process_frame data_frame st)) = header st.
Proof.
  intros Hl Hr.
  assert (Hc : forall st1, combine (Some 0) data_frame st1 = (None, st1)) by done.
  split; [apply Hc|]. split; [reflexivity|]. split.
  - apply (process_frame_no_complete data_packets); try done.
    intros st1 _. by rewrite Hr, Hc.
  - apply (process_frame_no_complete header); try done.
    intros st1 _. by rewrite Hr, Hc.
Qed.

(** Header 0xce 0x40: the low six bits of the second byte are zero. *)
Lemma dev_id_zero_as_unresolved_witness :
  let data_frame := [0xce; 0x40; 0x00; 0xc5; 0x01; 0x02; 0x03; 0x00] in
  combine (Some 0) data_frame init = (None, init)
  /\ frame_body (Some 0) "ERR" data_frame init = frame_body None "ERR" data_frame init
  /\ data_packets (snd (process_frame data_frame init)) = data_packets init
  /\ header (snd (process_frame data_frame init)) = header init.
Proof.
  intros data_frame.
  apply (dev_id_zero_as_unresolved data_frame "ERR" init); reflexivity.
Defined.

(** ** Static frames *)

(** A consecutive or last frame for a device with an open message. *)
Lemma combine_append (data_frame p : list Z) (key : Z) (st : State) :
  key <> 0 ->
  length data_frame = 8%nat ->
  frame_type_of data_frame = 0 \/ frame_type_of data_frame = 1 ->
  data_packets st !! key = Some p ->
  data_packets (snd (combine (Some key) data_frame st)) !! key
  = Some (p ++ slice 4 7 data_frame).
Proof.
  intros Hk Hl Ht Hd. unfold combine. cbv zeta.
  rewrite Hl. cbn [truthy]. rewrite (proj2 (Z.eqb_neq _ _) Hk).
  cbn [negb andb Nat.eqb].
  change (int_of (Some key)) with key. cbn [set_header data_packets].
  destruct Ht as [-> | ->]; cbn [Z.eqb Pos.eqb]; rewrite Hd; cbn;
    apply lookup_insert_eq.
Qed.

(** C10.  When the command key of a completed message is one of the five
    keys of a static frame, the decoder prints the packet and nothing else,
    whatever the payload is, and the entry of the device stays in
    [data_packets]; a consecutive or last frame of the same device that
    comes next is appended to that payload. *)
Theorem static_frame_retained (key : Z) (p : list Z) (st : State) :
  key <> 0 ->
  data_packets st !! key = Some p ->
  cmd_of key p ∈ static_keys ->
  decoder (Some key) st = (inr tt, print (PacketLine key p) st)
  /\ data_packets (snd (decoder (Some key) st)) = data_packets st
  /\ forall data_frame,
       length data_frame = 8%nat ->
       frame_type_of data_frame = 0 \/ frame_type_of data_frame = 1 ->
       data_packets (snd (combine (Some key) data_frame (snd (decoder (Some key) st))))
         !! key
       = Some (p ++ slice 4 7 data_frame).
Proof.
  intros Hk Hd Hc.
  assert (He : decoder (Some key) st = (inr tt, print (PacketLine key p) st)).
  { unfold decoder. cbn [truthy]. rewrite (proj2 (Z.eqb_neq _ _) Hk).
    cbn [negb]. change (int_of (Some key)) with key. cbv zeta.
    unfold mbind at 1, M_bind at 1. unfold packet. rewrite Hd.
    unfold static_keys in Hc.
    repeat (apply elem_of_cons in Hc as [Hc|Hc]);
      [rewrite Hc; cbn [Z.eqb Pos.eqb];
       match goal with |- context [array_equal ?a ?b] => by destruct (array_equal a b) end ..
      | by apply elem_of_nil in Hc]. }
  rewrite He. cbn [snd]. repeat split.
  intros data_frame Hl Ht. by apply combine_append.
Qed.

(** Device 0x0d, payload [4a 0c ff], then a consecutive frame. *)
Lemma static_frame_retained_witness :
  let p := [0x4a; 0x0c; 0xff] in
  let st := set_data_packets {[ 0x0d := p ]} init in
  decoder (Some 0x0d) st = (inr tt, print (PacketLine 0x0d p) st)
  /\ data_packets (snd (decoder (Some 0x0d) st)) = data_packets st
  /\ forall data_frame,
       length data_frame = 8%nat ->
       frame_type_of data_frame = 0 \/ frame_type_of data_frame = 1 ->
       data_packets (snd (combine (Some 0x0d) data_frame (snd (decoder (Some 0x0d) st))))
         !! 0x0d
       = Some (p ++ slice 4 7 data_frame).
Proof.
  intros p st.
  apply (static_frame_retained 0x0d p st);
    [discriminate | reflexivity | vm_compute; left].
Defined.

(** ** Frame filter *)

Lemma demod_lines_print (l : Line) (st : State) :
  demod_lines (print l st) = demod_lines st ++ (if is_demod l then [l] else []).
Proof. unfold demod_lines. cbn [stdout print]. by rewrite List.filter_app. Qed.

Lemma filtered_iff (data_frame : list Z) :
  filtered data_frame = true <-> take 3 data_frame ∈ MSG_FILTER.
Proof.
  unfold filtered. rewrite existsb_exists. split.
  - intros (msg & Hin & He). apply bool_decide_eq_true in He. subst msg.
    by apply list_elem_of_In.
  - intros Hin. exists (take 3 data_frame). split; [by apply list_elem_of_In|].
    by apply bool_decide_eq_true.
Qed.

Lemma print_frame_cases dev_id crc_text data_frame st :
  (filtered data_frame = true ->
   print_frame dev_id crc_text data_frame st = (inr tt, st))
  /\ (filtered data_frame = false ->
      (exists h, print_frame dev_id crc_text data_frame st
                 = (inr tt, print (DemodLine (int_of dev_id) crc_text data_frame h) st))
      \/ ((8 <= length data_frame)%nat
          /\ print_frame dev_id crc_text data_frame st = (inl UnboundLocalError, st))).
Proof.
  unfold print_frame. split; intros ->; [done|]. cbn [negb].
  destruct (Nat.ltb_spec (length data_frame) 8) as [Hl|Hl].
  { left. by eexists. }
  unfold mbind, M_bind, local, modify.
  destruct (frame_type_str st); [|by right].
  destruct (counter st); [|by right].
  destruct (reserved st); [|by right].
  left. by eexists.
Qed.

Lemma decoder_demod_lines (complete : option Z) : preserves demod_lines (decoder complete).
Proof.
  apply decoder_preserves; try done.
  - intros. by rewrite demod_lines_print, app_nil_r.
  - intros. by rewrite demod_lines_print, app_nil_r.
Qed.

Lemma frame_body_demod_lines dev_id crc_text data_frame st :
  (filtered data_frame = true ->
   demod_lines (snd (frame_body dev_id crc_text data_frame st)) = demod_lines st)
  /\ (filtered data_frame = false ->
      fst (frame_body dev_id crc_text data_frame st) = inr tt ->
      exists h, demod_lines (snd (frame_body dev_id crc_text data_frame st))
                = demod_lines st ++ [DemodLine (int_of dev_id) crc_text data_frame h]).
Proof.
  unfold frame_body, mbind, M_bind.
  pose proof (combine_preserves demod_lines dev_id data_frame st
                ltac:(done) ltac:(done)) as Hc.
  destruct (combine dev_id data_frame st) as [c st1]. cbn [snd] in Hc.
  destruct (print_frame_cases dev_id crc_text data_frame st1) as [Hf Hn].
  split; intros Hflt.
  - rewrite (Hf Hflt). by rewrite decoder_demod_lines.
  - destruct (Hn Hflt) as [[h ->] | [_ ->]]; [|done].
    intros _. exists h.
    by rewrite decoder_demod_lines, demod_lines_print, Hc.
Qed.

Lemma short_frame_returns (data_frame : list Z) (st : State) :
  (length data_frame < 8)%nat -> fst (process_frame data_frame st) = inr tt.
Proof.
  intros Hl. unfold process_frame, frame_body, mbind, M_bind, modify.
  destruct (check_crc data_frame _) as [crc_text n].
  unfold combine.
  replace (length data_frame =? 8)%nat with false
    by (symmetry; apply Nat.eqb_neq; lia).
  rewrite andb_false_r.
  unfold print_frame. rewrite (proj2 (Nat.ltb_lt _ _) Hl).
  by destruct (negb (filtered data_frame)).
Qed.

Lemma combine_header (dev_id : option Z) (data_frame : list Z) (st : State) :
  if truthy dev_id && (length data_frame =? 8)%nat
  then header_bound (snd (combine dev_id data_frame st)) = true
  else combine dev_id data_frame st = (None, st).
Proof.
  unfold combine. destruct (truthy dev_id && _); [|done]. cbv zeta.
  repeat match goal with
         | |- context [if ?c then _ else _] => destruct c
         | |- context [match ?o with Some _ => _ | None => _ end] => destruct o
         end; reflexivity.
Qed.

Lemma frame_body_log dev_id crc_text data_frame st :
  filtered data_frame = false ->
  let ready := (length data_frame <? 8)%nat
               || (truthy dev_id && (length data_frame =? 8)%nat)
               || header_bound st in
  let out := frame_body dev_id crc_text data_frame st in
  (ready = true ->
   exists h, demod_lines (snd out)
             = demod_lines st ++ [DemodLine (int_of dev_id) crc_text data_frame h])
  /\ (ready = false ->
      fst out = inl UnboundLocalError /\ demod_lines (snd out) = demod_lines st).
Proof.
  intros Hf ready out. subst ready out. unfold frame_body, mbind, M_bind.
  pose proof (combine_preserves demod_lines dev_id data_frame st
                ltac:(done) ltac:(done)) as Hc.
  pose proof (combine_header dev_id data_frame st) as Hh.
  destruct (combine dev_id data_frame st) as [c st1]. cbn [snd] in Hc, Hh.
  unfold print_frame. rewrite Hf. cbn [negb].
  destruct (length data_frame <? 8)%nat; cbn [orb].
  { split; [|done]. intros _. unfold modify. eexists.
    by rewrite decoder_demod_lines, demod_lines_print, Hc. }
  assert (Hp : forall st',
            demod_lines st' = demod_lines st ->
            let out := match (s ← local frame_type_str; c0 ← local counter;
                              r ← local reserved;
                              modify (print (DemodLine (int_of dev_id) crc_text
                                               data_frame (Some (s, c0, r))))) st'
                       with
                       | (inl e, st2) => (inl e, st2)
                       | (inr _, st2) => decoder c st2
                       end in
            (header_bound st' = true ->
             exists h, demod_lines (snd out)
                       = demod_lines st
                         ++ [DemodLine (int_of dev_id) crc_text data_frame h])
            /\ (header_bound st' = false ->
                fst out = inl UnboundLocalError
                /\ demod_lines (snd out) = demod_lines st)).
  { intros st' Hd. unfold header_bound, mbind, M_bind, local, modify. cbv zeta.
    destruct (frame_type_str st') as [s|]; [|by split].
    destruct (counter st') as [c0|]; [|by split].
    destruct (reserved st') as [r|]; [|by split].
    split; [|done]. intros _. eexists.
    by rewrite decoder_demod_lines, demod_lines_print, Hd. }
  destruct (truthy dev_id && (length data_frame =? 8)%nat); cbn [orb].
  - split; [|done]. intros _. by apply (Hp st1 Hc).
  - injection Hh as -> ->. apply (Hp st eq_refl).
Qed.

Lemma process_frame_body (data_frame : list Z) (st : State) :
  exists crc_text st0,
    process_frame data_frame st
    = frame_body (resolve_dev_id data_frame) crc_text data_frame st0
    /\ demod_lines st0 = demod_lines st
    /\ header_bound st0 = header_bound st.
Proof.
  unfold process_frame, mbind, M_bind, modify.
  destruct (check_crc data_frame _) as [crc_text n]. by eexists _, _.
Qed.

(** C7.  A frame is filtered exactly when its first three bytes are one of
    the six signatures of [MSG_FILTER] (so a longer frame that starts with a
    signature is filtered too, and a frame of fewer than three bytes never
    is).  A filtered frame prints no [demod] line.  A frame that is not
    filtered prints one [demod] line for it when the frame log has what it
    prints ([log_ready]); when it has not (a frame of 8 bytes or more that
    does not go through the reassembler while the header locals are
    unbound) the frame log raises [UnboundLocalError] and no [demod] line
    is printed.  So a frame whose iteration ends normally is logged exactly
    when it is not filtered, and a frame shorter than 8 bytes always ends
    normally.  Every frame, filtered or not, adds one to the count of
    messages. *)
Theorem filter_on_first_three_bytes (data_frame : list Z) (st : State) :
  let out := process_frame data_frame st in
  (filtered data_frame = true <-> take 3 data_frame ∈ MSG_FILTER)
  /\ count_msg (snd out) = count_msg st + 1
  /\ (filtered data_frame = true -> demod_lines (snd out) = demod_lines st)
  /\ (filtered data_frame = false -> log_ready data_frame st = true ->
      exists crc_text h,
        demod_lines (snd out)
        = demod_lines st
          ++ [DemodLine (int_of (resolve_dev_id data_frame)) crc_text data_frame h])
  /\ (filtered data_frame = false -> log_ready data_frame st = false ->
      fst out = inl UnboundLocalError /\ demod_lines (snd out) = demod_lines st)
  /\ (filtered data_frame = false -> fst out = inr tt ->
      exists crc_text h,
        demod_lines (snd out)
        = demod_lines st
          ++ [DemodLine (int_of (resolve_dev_id data_frame)) crc_text data_frame h])
  /\ ((length data_frame < 8)%nat -> fst out = inr tt).
Proof.
  intros out. split; [apply filtered_iff|].
  split; [apply process_frame_count_msg|].
  split; [|split; [|split; [|split; [|apply short_frame_returns]]]].
  - intros Hf. subst out. unfold process_frame, mbind at 1 2, M_bind at 1 2, modify.
    destruct (check_crc data_frame _) as [crc_text n].
    by rewrite (proj1 (frame_body_demod_lines _ _ _ _) Hf).
  - intros Hf Hr. subst out.
    destruct (process_frame_body data_frame st) as (crc_text & st0 & -> & Hd & Hh).
    exists crc_text. rewrite <- Hd.
    pose proof (frame_body_log (resolve_dev_id data_frame) crc_text data_frame st0 Hf)
      as H. cbv zeta in H. destruct H as [H _]. apply H.
    by rewrite Hh.
  - intros Hf Hr. subst out.
    destruct (process_frame_body data_frame st) as (crc_text & st0 & -> & Hd & Hh).
    rewrite <- Hd.
    pose proof (frame_body_log (resolve_dev_id data_frame) crc_text data_frame st0 Hf)
      as H. cbv zeta in H. destruct H as [_ H]. apply H.
    by rewrite Hh.
  - intros Hf. subst out. unfold process_frame, mbind at 1 2 3 4, M_bind at 1 2 3 4, modify.
    destruct (check_crc data_frame _) as [crc_text n].
    intros Hr. exists crc_text.
    by destruct (proj2 (frame_body_demod_lines _ _ _ _) Hf Hr) as [h ->]; exists h.
Qed.

(** The keepalive [cf 7f 81] is counted and not logged; [cc 40 0d] is
    counted and logged; eight zero bytes as the first frame of a run are
    not filtered and not logged: the frame log raises. *)
Lemma filter_on_first_three_bytes_witness :
  (count_msg (snd (process_frame [0xcf; 0x7f; 0x81] init)) = 1
   /\ demod_lines (snd (process_frame [0xcf; 0x7f; 0x81] init)) = [])
  /\ (exists crc_text h,
        demod_lines (snd (process_frame [0xcc; 0x40; 0x0d] init))
        = [DemodLine 0x0d crc_text [0xcc; 0x40; 0x0d] h])
  /\ fst (process_frame [0; 0; 0; 0; 0; 0; 0; 0] init) = inl UnboundLocalError
  /\ demod_lines (snd (process_frame [0; 0; 0; 0; 0; 0; 0; 0] init)) = [].
Proof.
  split; [|split].
  - destruct (filter_on_first_three_bytes [0xcf; 0x7f; 0x81] init)
      as (_ & Hc & Hf & _).
    split; [exact Hc | apply Hf; reflexivity].
  - destruct (filter_on_first_three_bytes [0xcc; 0x40; 0x0d] init)
      as (_ & _ & _ & Hr & _).
    apply Hr; reflexivity.
  - destruct (filter_on_first_three_bytes [0; 0; 0; 0; 0; 0; 0; 0] init)
      as (_ & _ & _ & _ & Hn & _).
    apply Hn; reflexivity.
Defined.

(** As the claim is worded (left out if and only if the frame is one of the
    signatures) it fails: this frame of 8 bytes is none of the signatures,
    its iteration ends normally, and it is not logged. *)
Lemma filter_exact_match_counterexample :
  let data_frame := [0xcf; 0x7f; 0x81; 0x00; 0x00; 0x00; 0x00; 0x00] in
  (data_frame ∉ MSG_FILTER)
  /\ fst (process_frame data_frame init) = inr tt
  /\ stdout (snd (process_frame data_frame init)) = []
  /\ count_msg (snd (process_frame data_frame init)) = 1.
Proof.
  intros data_frame. split; [|by vm_compute].
  intros H. unfold MSG_FILTER in H.
  repeat (apply elem_of_cons in H as [H|H]; [discriminate H|]).
  by apply elem_of_nil in H.
Qed.

(** ** Decoder *)

(** C8.  The command key is [(key << 16) | big-endian value of the first
    two bytes of the payload].  For device 0x0d the payload
    [3c 08 1a 02 00 ff] (the one the source quotes for the speed) has the
    key 0x0d3c08 and decodes to the speed 538 / 10 = 53.8 km/h, read from
    the bytes [1a 02] at [2:4], little-endian (0x021a = 538); the message is
    then deleted.  The payload [01 02 3c 08 1a 02 00] has the key 0x0d0102,
    which no rule matches: it is reported as unknown. *)
Theorem speed_decoding :
  (forall key b0 b1 rest,
     cmd_of key (b0 :: b1 :: rest)
     = Z.lor (Z.shiftl key 16) (Z.lor (Z.shiftl b0 8) b1))
  /\ (let p := [0x3c; 0x08; 0x1a; 0x02; 0x00; 0xff] in
      let st := set_data_packets {[ 0x0d := p ]} init in
      cmd_of 0x0d p = 0x0d3c08
      /\ slice 2 4 p = [0x1a; 0x02]
      /\ from_bytes_little (slice 2 4 p) = 538
      /\ fst (decoder (Some 0x0d) st) = inr tt
      /\ stdout (snd (decoder (Some 0x0d) st))
         = [PacketLine 0x0d p; DecodLine 0x0d (Speed (538 # 10))]
      /\ data_packets (snd (decoder (Some 0x0d) st)) = ∅
      /\ (538 # 10 == 53.8)%Q)
  /\ (let p := [0x01; 0x02; 0x3c; 0x08; 0x1a; 0x02; 0x00] in
      let st := set_data_packets {[ 0x0d := p ]} init in
      cmd_of 0x0d p = 0x0d0102
      /\ stdout (snd (decoder (Some 0x0d) st))
         = [PacketLine 0x0d p; DecodLine 0x0d (Unknown p)]).
Proof.
  split; [|split].
  - intros key b0 b1 rest. unfold cmd_of, slice, from_bytes_big.
    cbn [drop take foldl Nat.sub]. by rewrite Z.shiftl_0_l, Z.lor_0_l.
  - by vm_compute.
  - by vm_compute.
Qed.

(** As the claim is worded it fails: the first two bytes of the payload
    [01 02 3c 08 1a 02 00] are [01 02], so the key of device 0x0d is
    0x0d0102 and not 0x0d3c08, and the decoder reports no speed; and the
    bytes [1a 02] read little-endian are 538, not 26. *)
Lemma speed_scenario_counterexample :
  let p := [0x01; 0x02; 0x3c; 0x08; 0x1a; 0x02; 0x00] in
  let st := set_data_packets {[ 0x0d := p ]} init in
  cmd_of 0x0d p <> 0x0d3c08
  /\ from_bytes_little [0x1a; 0x02] <> 26
  /\ (DecodLine 0x0d (Speed (26 # 10)) ∉ stdout (snd (decoder (Some 0x0d) st))).
Proof.
  intros p st. split; [by vm_compute|]. split; [by vm_compute|].
  replace (stdout (snd (decoder (Some 0x0d) st)))
    with [PacketLine 0x0d p; DecodLine 0x0d (Unknown p)] by (by vm_compute).
  intros H.
  repeat (apply elem_of_cons in H as [H|H]; [discriminate H|]).
  by apply elem_of_nil in H.
Qed.

(** ** Demodulator *)

Lemma range_loop_lookup (step stop fuel i k : nat) :
  (0 < step)%nat -> (stop - i <= fuel)%nat ->
  range_loop fuel i stop step !! k
  = if (i + k * step <? stop)%nat then Some (i + k * step)%nat else None.
Proof.
  intros Hs. revert i k. induction fuel as [|fuel IH]; intros i k Hf.
  - cbn [range_loop]. rewrite lookup_nil.
    destruct (Nat.ltb_spec (i + k * step) stop); [lia|done].
  - cbn [range_loop]. destruct (Nat.ltb_spec i stop) as [Hi|Hi].
    + destruct k as [|k].
      * rewrite Nat.mul_0_l, Nat.add_0_r.
        by rewrite (proj2 (Nat.ltb_lt _ _) Hi).
      * rewrite lookup_cons_ne_0 by done. rewrite Nat.pred_succ, IH by lia.
        replace (i + step + k * step)%nat with (i + S k * step)%nat by lia. done.
    + rewrite lookup_nil.
      destruct (Nat.ltb_spec (i + k * step) stop); [lia|done].
Qed.

Lemma range_lookup (start stop step k : nat) :
  (0 < step)%nat ->
  range start stop step !! k
  = if (start + k * step <? stop)%nat then Some (start + k * step)%nat else None.
Proof. intros Hs. unfold range. by apply range_loop_lookup. Qed.

Lemma range_bound (start stop step i : nat) :
  (0 < step)%nat -> i ∈ range start stop step -> (i < stop)%nat.
Proof.
  intros Hs Hin. apply list_elem_of_lookup in Hin as [k Hk].
  rewrite range_lookup in Hk by done.
  destruct (Nat.ltb_spec (start + k * step) stop); [|done].
  injection Hk as <-. done.
Qed.

Lemma skip_equal_bound (fuel : nat) (x : list Z) (i i_ahead i_max : nat) :
  (i_ahead <= i_max)%nat ->
  (i_ahead <= skip_equal fuel x i i_ahead i_max <= i_max)%nat.
Proof.
  revert i_ahead. induction fuel as [|fuel IH]; intros i_ahead Hle; cbn [skip_equal]; [lia|].
  destruct (Nat.ltb_spec i_ahead i_max) as [Hlt|Hge]; cbn [andb]; [|lia].
  destruct (at_ x i_ahead =? at_ x i); [|lia].
  specialize (IH (S i_ahead) ltac:(lia)). lia.
Qed.

(** The fuel of the three loops is enough: more of it changes nothing. *)
Lemma skip_equal_fuel (fuel fuel' : nat) (x : list Z) (i i_ahead i_max : nat) :
  (i_max - i_ahead <= fuel)%nat -> (i_max - i_ahead <= fuel')%nat ->
  skip_equal fuel x i i_ahead i_max = skip_equal fuel' x i i_ahead i_max.
Proof.
  revert fuel' i_ahead.
  induction fuel as [|fuel IH]; intros fuel' i_ahead Hf Hf'.
  - destruct fuel' as [|fuel']; [done|]. cbn [skip_equal].
    by rewrite (proj2 (Nat.ltb_ge _ _)) by lia.
  - cbn [skip_equal]. destruct (Nat.ltb_spec i_ahead i_max) as [Hlt|Hge].
    + destruct fuel' as [|fuel']; [lia|]. cbn [skip_equal].
      rewrite (proj2 (Nat.ltb_lt _ _) Hlt). cbn [andb].
      destruct (at_ x i_ahead =? at_ x i); [|done]. apply IH; lia.
    + cbn [andb]. destruct fuel' as [|fuel']; [done|]. cbn [skip_equal].
      by rewrite (proj2 (Nat.ltb_ge _ _) Hge).
Qed.

Lemma local_maxima_loop_fuel (fuel fuel' : nat) (x : list Z) (i i_max : nat) :
  (i_max - i <= fuel)%nat -> (i_max - i <= fuel')%nat ->
  local_maxima_loop fuel x i i_max = local_maxima_loop fuel' x i i_max.
Proof.
  revert fuel' i. induction fuel as [|fuel IH]; intros fuel' i Hf Hf'.
  - destruct fuel' as [|fuel']; [done|]. cbn [local_maxima_loop].
    by rewrite (proj2 (Nat.ltb_ge _ _)) by lia.
  - cbn [local_maxima_loop]. destruct (Nat.ltb_spec i i_max) as [Hlt|Hge].
    + destruct fuel' as [|fuel']; [lia|]. cbn [local_maxima_loop].
      rewrite (proj2 (Nat.ltb_lt _ _) Hlt). cbv zeta.
      pose proof (skip_equal_bound (length x) x i (i + 1) i_max ltac:(lia)).
      repeat match goal with
             | |- context [if ?b then _ else _] => destruct b
             end; try (apply (f_equal (cons _))); apply IH; lia.
    + destruct fuel' as [|fuel']; [done|]. cbn [local_maxima_loop].
      by rewrite (proj2 (Nat.ltb_ge _ _) Hge).
Qed.

Lemma read_chunks_concat (fuel : nat) (stdin : list Z) :
  (length stdin <= fuel)%nat -> concat (read_chunks fuel stdin) = stdin.
Proof.
  revert stdin. induction fuel as [|fuel IH]; intros stdin Hl.
  - by destruct stdin; [|cbn in Hl; lia].
  - destruct stdin as [|b stdin]; [done|].
    cbn [read_chunks concat]. rewrite IH; [apply take_drop|].
    rewrite length_drop. cbn [length] in *. lia.
Qed.

(** The chunks read are the input, cut every 32 bytes. *)
Lemma chunks_concat (stdin : list Z) : concat (chunks stdin) = stdin.
Proof. by apply read_chunks_concat. Qed.

Lemma local_maxima_loop_bound (fuel : nat) (x : list Z) (i i_max p : nat) :
  p ∈ local_maxima_loop fuel x i i_max -> (p < i_max)%nat.
Proof.
  revert i. induction fuel as [|fuel IH]; intros i; cbn [local_maxima_loop].
  { by intros ?%elem_of_nil. }
  destruct (Nat.ltb_spec i i_max) as [Hi|Hi]; [|by intros ?%elem_of_nil].
  destruct (at_ x (i - 1) <? at_ x i); [|by apply IH].
  cbv zeta.
  pose proof (skip_equal_bound (length x) x i (i + 1) i_max ltac:(lia)) as Hb.
  destruct (at_ x (skip_equal (length x) x i (i + 1) i_max) <? at_ x i);
    [|by apply IH].
  intros [->|Hin]%elem_of_cons; [|by eapply IH].
  apply Nat.Div0.div_lt_upper_bound. lia.
Qed.

Lemma find_peaks_bound (x : list Z) (height : Q) (p : nat) :
  p ∈ find_peaks x height -> (p < length x - 1)%nat.
Proof.
  unfold find_peaks, local_maxima_1d.
  intros Hin%list_elem_of_In. apply List.filter_In in Hin as [Hin _].
  apply list_elem_of_In in Hin. by eapply local_maxima_loop_bound.
Qed.

Lemma Exc_bind_inr {A B} (m : Exc A) (f : A -> Exc B) (y : B) :
  m ≫= f = inr y -> exists x, m = inr x /\ f x = inr y.
Proof. destruct m as [e|x]; [done|]. intros H. by exists x. Qed.

Lemma index_first_elem {A} (a : list A) (x : A) : index_first a = inr x -> x ∈ a.
Proof. destruct a; [done|]. intros [= ->]. apply list_elem_of_here. Qed.

Lemma index_last_elem {A} (a : list A) (x : A) : index_last a = inr x -> x ∈ a.
Proof.
  unfold index_last. destruct (last a) eqn:E; [|done]. intros [= ->].
  by apply last_Some_elem_of.
Qed.

Lemma length_data_inv (data : list Z) : length (data_inv data) = length data.
Proof. unfold data_inv. apply length_map. Qed.

(** A burst that has a span: the signal that is sampled is the burst or its
    inverse, and the span ends inside it. *)
Lemma burst_span_inr (data : list Z) (sp : Span) :
  burst_span data = inr sp ->
  (sp_data sp = data \/ sp_data sp = data_inv data)
  /\ (sp_x_last sp < length data - 1)%nat
  /\ (exists hi0 lo0, index_first (sp_peaks_hi sp) = inr hi0
        /\ index_first (sp_peaks_lo sp) = inr lo0
        /\ sp_x_first sp = Nat.min hi0 lo0).
Proof.
  unfold burst_span. intros H.
  apply Exc_bind_inr in H as (PEAK_MIN & _ & H).
  apply Exc_bind_inr in H as (PEAK_MAX & _ & H).
  cbv zeta in H.
  apply Exc_bind_inr in H as (hi0 & _ & H).
  apply Exc_bind_inr in H as (lo0 & _ & H).
  set (hi := peaks_hi_of data PEAK_MAX) in *.
  set (lo := peaks_lo_of data PEAK_MIN) in *.
  assert (Hhi : forall p, p ∈ hi -> (p < length data - 1)%nat)
    by (intros p; apply find_peaks_bound).
  assert (Hlo : forall p, p ∈ lo -> (p < length data - 1)%nat).
  { intros p Hp%find_peaks_bound. by rewrite length_data_inv in Hp. }
  destruct (hi0 <? lo0)%nat.
  - apply Exc_bind_inr in H as (hi0' & Hf1 & H).
    apply Exc_bind_inr in H as (lo0' & Hf2 & H).
    apply Exc_bind_inr in H as (hi1 & Hl1%index_last_elem & H).
    apply Exc_bind_inr in H as (lo1 & Hl2%index_last_elem & H).
    injection H as <-. cbn. split; [by right|]. split; [|by eauto].
    apply Hlo in Hl1. apply Hhi in Hl2. lia.
  - apply Exc_bind_inr in H as (hi0' & Hf1 & H).
    apply Exc_bind_inr in H as (lo0' & Hf2 & H).
    apply Exc_bind_inr in H as (hi1 & Hl1%index_last_elem & H).
    apply Exc_bind_inr in H as (lo1 & Hl2%index_last_elem & H).
    injection H as <-. cbn. split; [by left|]. split; [|by eauto].
    apply Hhi in Hl1. apply Hlo in Hl2. lia.
Qed.

(** The loop over the sample points, when they all lie inside [data]. *)
Lemma symbol_loop_inr (data : list Z) (MEAN : Q) (idx : list nat)
    (bits : list bool) (peaks : list nat) :
  (forall i, i ∈ idx -> (i < length data)%nat) ->
  symbol_loop data MEAN idx bits peaks
  = inr (bits ++ map (fun i => Qltb (inject_Z (at_ data i)) MEAN) idx, peaks ++ idx).
Proof.
  revert bits peaks. induction idx as [|i idx IH]; intros bits peaks Hin.
  - cbn. by rewrite !app_nil_r.
  - cbn [symbol_loop]. unfold getitem.
    destruct (lookup_lt_is_Some_2 data i) as [y Hy].
    { apply Hin. apply list_elem_of_here. }
    rewrite Hy. cbn [mbind Exc_bind mret Exc_ret].
    rewrite IH by (intros j Hj; apply Hin; by apply list_elem_of_further).
    cbn [map]. replace (at_ data i) with y by (unfold at_; by rewrite Hy).
    by rewrite <- !app_assoc.
Qed.

Lemma Qltb_true (x y : Q) : Qltb x y = true <-> (x < y)%Q.
Proof.
  unfold Qltb. rewrite negb_true_iff, <- not_true_iff_false, Qle_bool_iff.
  split; [apply Qnot_le_lt | apply Qlt_not_le].
Qed.

Lemma Qltb_false (x y : Q) : Qltb x y = false <-> (y <= x)%Q.
Proof. unfold Qltb. by rewrite negb_false_iff, Qle_bool_iff. Qed.

Lemma samples_per_symbol : Z.to_nat SAMPLES_PER_SYMBOL = 10%nat.
Proof. reflexivity. Qed.

Lemma symbol_bits_inr (data : list Z) (sp : Span) :
  burst_span data = inr sp ->
  let idx := range (sp_x_first sp) (sp_x_last sp) 10 in
  symbol_bits data
  = inr (map (fun i => Qltb (inject_Z (at_ (sp_data sp) i)) (mean data)) idx, idx).
Proof.
  intros Hsp idx. unfold symbol_bits. rewrite Hsp.
  cbn [mbind Exc_bind]. rewrite samples_per_symbol.
  rewrite symbol_loop_inr; [done|].
  intros i Hi%range_bound; [|lia].
  destruct (burst_span_inr data sp Hsp) as ([-> | ->] & Hl & _);
    rewrite ?length_data_inv; lia.
Qed.

Lemma index_last_cons {A} (x : A) (a : list A) :
  exists y, index_last (x :: a) = inr y.
Proof.
  unfold index_last. destruct (last (x :: a)) as [y|] eqn:E; [by exists y|].
  by apply last_None in E.
Qed.

(** A non-empty burst with a high and a low peak has a span. *)
Lemma burst_span_peaks (data : list Z) (PEAK_MIN PEAK_MAX : Z) :
  amin data = inr PEAK_MIN ->
  amax data = inr PEAK_MAX ->
  peaks_hi_of data PEAK_MAX <> [] ->
  peaks_lo_of data PEAK_MIN <> [] ->
  exists sp, burst_span data = inr sp.
Proof.
  intros Hmin Hmax Hhi Hlo. unfold burst_span. rewrite Hmin, Hmax.
  cbn [mbind Exc_bind]. cbv zeta.
  destruct (peaks_hi_of data PEAK_MAX) as [|h hs]; [done|].
  destruct (peaks_lo_of data PEAK_MIN) as [|l ls]; [done|].
  cbn [index_first mbind Exc_bind mret Exc_ret].
  destruct (index_last_cons h hs) as [h1 Hh], (index_last_cons l ls) as [l1 Hl].
  destruct (h <? l)%nat; cbn [index_first mbind Exc_bind mret Exc_ret];
    rewrite Hh, Hl; by eexists.
Qed.

(** C1.  For a burst in which a high and a low peak are found, the
    demodulator takes one sample every 10 samples ([SAMPLES_PER_SYMBOL]),
    from the start of the span and as long as the index is before its end;
    each sample is read from the signal after the polarity step (the burst
    or its inverse) and compared with the mean of the burst as received:
    strictly below the mean gives bit 1 ([True]), at or above the mean gives
    bit 0. *)
Theorem symbol_decision (data : list Z) (PEAK_MIN PEAK_MAX : Z) :
  amin data = inr PEAK_MIN ->
  amax data = inr PEAK_MAX ->
  peaks_hi_of data PEAK_MAX <> [] ->
  peaks_lo_of data PEAK_MIN <> [] ->
  exists sp bits peaks,
    burst_span data = inr sp
    /\ (sp_data sp = data \/ sp_data sp = data_inv data)
    /\ symbol_bits data = inr (bits, peaks)
    /\ length bits = length peaks
    /\ (forall k,
          peaks !! k
          = if (sp_x_first sp + k * 10 <? sp_x_last sp)%nat
            then Some (sp_x_first sp + k * 10)%nat else None)
    /\ (forall k i,
          peaks !! k = Some i ->
          exists y,
            sp_data sp !! i = Some y
            /\ ((inject_Z y < mean data)%Q -> bits !! k = Some true)
            /\ ((mean data <= inject_Z y)%Q -> bits !! k = Some false)).
Proof.
  intros Hmin Hmax Hhi Hlo.
  destruct (burst_span_peaks data PEAK_MIN PEAK_MAX) as [sp Hsp]; try done.
  pose proof (symbol_bits_inr data sp Hsp) as Hb. cbv zeta in Hb.
  destruct (burst_span_inr data sp Hsp) as (Hd & Hl & _).
  exists sp. eexists _, _. split; [done|]. split; [done|].
  split; [exact Hb|]. split; [by rewrite length_map|].
  split; [intros k; apply range_lookup; lia|].
  intros k i Hk.
  assert (Hi : (i < length (sp_data sp))%nat).
  { apply list_elem_of_lookup_2, range_bound in Hk; [|lia].
    destruct Hd as [-> | ->]; rewrite ?length_data_inv; lia. }
  destruct (lookup_lt_is_Some_2 _ _ Hi) as [y Hy].
  exists y. split; [done|].
  rewrite list_lookup_fmap, Hk. cbn [fmap option_fmap option_map].
  unfold at_. rewrite Hy. cbn [default from_option].
  split; intros H; f_equal; [by apply Qltb_true | by apply Qltb_false].
Qed.

(** [burst2]: the low peak comes first, the signal is not inverted. *)
Lemma symbol_decision_witness :
  exists sp bits peaks,
    burst_span burst2 = inr sp
    /\ (sp_data sp = burst2 \/ sp_data sp = data_inv burst2)
    /\ symbol_bits burst2 = inr (bits, peaks)
    /\ length bits = length peaks
    /\ (forall k,
          peaks !! k
          = if (sp_x_first sp + k * 10 <? sp_x_last sp)%nat
            then Some (sp_x_first sp + k * 10)%nat else None)
    /\ (forall k i,
          peaks !! k = Some i ->
          exists y,
            sp_data sp !! i = Some y
            /\ ((inject_Z y < mean burst2)%Q -> bits !! k = Some true)
            /\ ((mean burst2 <= inject_Z y)%Q -> bits !! k = Some false)).
Proof.
  apply (symbol_decision burst2 0 255).
  - vm_compute. reflexivity.
  - vm_compute. reflexivity.
  - vm_compute. discriminate.
  - vm_compute. discriminate.
Defined.

(** As the claim is worded (below the mean gives bit 0, at or above gives
    bit 1) it fails.  In [burst2] the polarity step does not invert the
    signal; the first sample point is index 1, where the amplitude 0 is
    below the mean and the bit is 1, and the second one is index 11, where
    the amplitude 200 is above the mean and the bit is 0. *)
Lemma below_mean_is_bit_zero_counterexample :
  exists sp bits peaks,
    burst_span burst2 = inr sp
    /\ sp_data sp = burst2
    /\ symbol_bits burst2 = inr (bits, peaks)
    /\ (peaks !! 0%nat = Some 1%nat /\ burst2 !! 1%nat = Some 0
        /\ (inject_Z 0 < mean burst2)%Q /\ bits !! 0%nat = Some true)
    /\ (peaks !! 1%nat = Some 11%nat /\ burst2 !! 11%nat = Some 200
        /\ (mean burst2 <= inject_Z 200)%Q /\ bits !! 1%nat = Some false).
Proof.
  exists span2, [true; false; false; false], [1; 11; 21; 31]%nat.
  split; [by vm_compute|]. split; [done|]. split; [by vm_compute|].
  split.
  - by repeat split.
  - by repeat split.
Qed.

(** ** Bits to bytes *)

Lemma pack_byte_value (bits : list bool) (j : nat) :
  pack_byte (take 8 (drop (8 * j) bits)) = byte_msb_first bits j.
Proof.
  unfold pack_byte, byte_msb_first, bit_at. cbn [seq foldl].
  rewrite !lookup_take_lt, !lookup_drop by lia.
  generalize (default false (bits !! (8 * j + 0)%nat)),
    (default false (bits !! (8 * j + 1)%nat)),
    (default false (bits !! (8 * j + 2)%nat)),
    (default false (bits !! (8 * j + 3)%nat)),
    (default false (bits !! (8 * j + 4)%nat)),
    (default false (bits !! (8 * j + 5)%nat)),
    (default false (bits !! (8 * j + 6)%nat)),
    (default false (bits !! (8 * j + 7)%nat)).
  by intros [] [] [] [] [] [] [] [].
Qed.

Lemma pack_loop_length (n : nat) (bits : list bool) : length (pack_loop n bits) = n.
Proof. revert bits. induction n as [|n IH]; intros bits; cbn; [done|]. by rewrite IH. Qed.

Lemma pack_loop_lookup (n j : nat) (bits : list bool) :
  (j < n)%nat ->
  pack_loop n bits !! j = Some (pack_byte (take 8 (drop (8 * j) bits))).
Proof.
  revert j bits. induction n as [|n IH]; intros j bits Hj; [lia|].
  cbn [pack_loop]. destruct j as [|j]; [done|].
  rewrite lookup_cons_ne_0 by done. rewrite Nat.pred_succ, IH by lia.
  rewrite drop_drop. by replace (8 * S j)%nat with (8 + 8 * j)%nat by lia.
Qed.

Lemma packbits_inr (bits : list bool) :
  (0 < length bits)%nat ->
  packbits bits = inr (pack_loop ((length bits + 7) / 8) bits).
Proof. destruct bits; [cbn; lia | done]. Qed.

(** C3.  When the demodulator decides at least two bits, the first one (the
    start of frame) is discarded and the others are packed 8 to a byte, most
    significant bit first; a last group of fewer than 8 bits is completed
    with zero bits into one more byte, so the frame has
    ceil((number of bits - 1) / 8) bytes. *)
Theorem frame_packing (data : list Z) (bits : list bool) (peaks : list nat) :
  symbol_bits data = inr (bits, peaks) ->
  (2 <= length bits)%nat ->
  exists data_frame,
    demodulate data = inr data_frame
    /\ length data_frame = ((length bits - 1 + 7) / 8)%nat
    /\ forall j, (j < length data_frame)%nat ->
         data_frame !! j = Some (byte_msb_first (drop 1 bits) j).
Proof.
  intros Hb Hl. unfold demodulate. rewrite Hb. cbn [mbind Exc_bind].
  assert (Hd : length (drop 1 bits) = (length bits - 1)%nat) by apply length_drop.
  rewrite packbits_inr by lia. rewrite Hd.
  eexists. split; [done|].
  split; [apply pack_loop_length|].
  intros j Hj. rewrite pack_loop_length in Hj.
  by rewrite pack_loop_lookup, pack_byte_value.
Qed.

Lemma frame_packing_witness :
  exists data_frame,
    demodulate burst2 = inr data_frame
    /\ length data_frame = ((4 - 1 + 7) / 8)%nat
    /\ forall j, (j < length data_frame)%nat ->
         data_frame !! j = Some (byte_msb_first [false; false; false] j).
Proof.
  apply (frame_packing burst2 [true; false; false; false] [1; 11; 21; 31]%nat).
  - vm_compute. reflexivity.
  - cbn. lia.
Defined.

(** As the claim is worded (trailing bits dropped, floor((bits - 1) / 8)
    bytes) it fails: [burst2] decodes to 4 bits, the 3 that remain after the
    start of frame make one byte, where floor(3 / 8) is 0. *)
Lemma trailing_bits_dropped_counterexample :
  exists bits peaks data_frame,
    symbol_bits burst2 = inr (bits, peaks)
    /\ demodulate burst2 = inr data_frame
    /\ length bits = 4%nat
    /\ length data_frame = 1%nat
    /\ length data_frame <> ((length bits - 1) / 8)%nat.
Proof.
  exists [true; false; false; false], [1; 11; 21; 31]%nat, [0].
  split; [by vm_compute|]. split; [by vm_compute|]. by repeat split.
Qed.

(** ** A burst without peaks *)

(** No high peak or no low peak: [peaks_hi[0] < peaks_lo[0]] at line 110
    raises [IndexError]. *)
Lemma burst_span_no_peaks (data : list Z) (PEAK_MIN PEAK_MAX : Z) :
  amin data = inr PEAK_MIN ->
  amax data = inr PEAK_MAX ->
  peaks_hi_of data PEAK_MAX = [] \/ peaks_lo_of data PEAK_MIN = [] ->
  burst_span data = inl IndexError.
Proof.
  intros Hmin Hmax Hp. unfold burst_span. rewrite Hmin, Hmax.
  cbn [mbind Exc_bind]. cbv zeta.
  destruct Hp as [-> | ->]; [done|].
  by destruct (peaks_hi_of data PEAK_MAX).
Qed.

(** Nothing catches the exception: when the quiet chunk [buf] ends an
    accepted burst without peaks, the loop ends there with [IndexError],
    whatever input ([bufs]) is left; the burst is not counted. *)
Lemma no_peaks_is_fatal (data buf : list Z) (bufs : list (list Z)) (st : State)
    (PEAK_MIN PEAK_MAX lo hi : Z) :
  amin data = inr PEAK_MIN ->
  amax data = inr PEAK_MAX ->
  peaks_hi_of data PEAK_MAX = [] \/ peaks_lo_of data PEAK_MIN = [] ->
  amin buf = inr lo -> amax buf = inr hi ->
  NOISE_THRESHOLD_MIN <= lo -> hi <= NOISE_THRESHOLD_MAX ->
  ADC_SAMPLES_FOR_3_BYTE_MSG <= Z.of_nat (length data) < ADC_SAMPLES_FOR_TOO_LONG_MSG ->
  main_loop (buf :: bufs) data st = (inl IndexError, st).
Proof.
  intros Hmin Hmax Hp Hlo Hhi Hq1 Hq2 Hlen.
  cbn [main_loop]. destruct buf as [|b buf]; [done|]. cbn [length Nat.eqb].
  unfold mbind at 1, M_bind at 1, lift at 1. rewrite Hlo.
  unfold mbind at 1, M_bind at 1, lift at 1. rewrite Hhi.
  rewrite (proj2 (Z.ltb_ge _ _) Hq1), (proj2 (Z.ltb_ge _ _) Hq2). cbn [orb].
  rewrite (proj2 (Z.leb_le _ _) (proj1 Hlen)), (proj2 (Z.ltb_lt _ _) (proj2 Hlen)).
  cbn [andb].
  unfold mbind at 1, M_bind at 1, process_burst.
  unfold mbind at 1, M_bind at 1, lift, demodulate, symbol_bits.
  by rewrite (burst_span_no_peaks data PEAK_MIN PEAK_MAX).
Qed.

(** C2.  On [flat_input] the program ends with an uncaught [IndexError] at
    the first burst: it has counted no message and printed nothing after its
    six constants, although the input goes on with [burst2], which alone is
    demodulated, counted and logged. *)
Theorem flat_burst_ends_the_program :
  fst (main flat_input) = inl IndexError
  /\ count_msg (snd (main flat_input)) = 0
  /\ length (stdout (snd (main flat_input))) = 6%nat
  /\ fst (main (burst2 ++ replicate 32 128)) = inr tt
  /\ count_msg (snd (main (burst2 ++ replicate 32 128))) = 1.
Proof. by vm_compute. Qed.

(** ** Burst extractor *)

Lemma foldl_min_ltb (t x : Z) (a : list Z) :
  (foldl Z.min x a <? t) = existsb (fun b => b <? t) (x :: a).
Proof.
  revert x. induction a as [|y a IH]; intros x; cbn [foldl existsb].
  - by rewrite orb_false_r.
  - rewrite IH. cbn [existsb]. rewrite orb_assoc. f_equal.
    destruct (Z.ltb_spec (Z.min x y) t), (Z.ltb_spec x t), (Z.ltb_spec y t);
      cbn; try done; lia.
Qed.

Lemma foldl_max_gtb (t x : Z) (a : list Z) :
  (t <? foldl Z.max x a) = existsb (fun b => t <? b) (x :: a).
Proof.
  revert x. induction a as [|y a IH]; intros x; cbn [foldl existsb].
  - by rewrite orb_false_r.
  - rewrite IH. cbn [existsb]. rewrite orb_assoc. f_equal.
    destruct (Z.ltb_spec t (Z.max x y)), (Z.ltb_spec t x), (Z.ltb_spec t y);
      cbn; try done; lia.
Qed.

Lemma existsb_orb {A} (f g : A -> bool) (l : list A) :
  existsb (fun x => f x || g x) l = existsb f l || existsb g l.
Proof.
  induction l as [|x l IH]; [done|]. cbn [existsb]. rewrite IH.
  by destruct (f x), (g x), (existsb f l), (existsb g l).
Qed.

(** One turn of the loop, by cases on the chunk read. *)
Lemma main_loop_cons (buf : list Z) (bufs : list (list Z)) (data : list Z)
    (st : State) :
  main_loop (buf :: bufs) data st =
    if (length buf =? 0)%nat then summary st
    else if is_active buf then main_loop bufs (data ++ buf) st
    else if in_window data then
      match process_burst data st with
      | (inl e, st1) => (inl e, st1)
      | (inr _, st1) => main_loop bufs [] st1
      end
    else main_loop bufs [] st.
Proof.
  cbn [main_loop]. destruct buf as [|b buf]; [done|]. cbn [length Nat.eqb].
  unfold mbind at 1, M_bind at 1, lift at 1, amin.
  unfold mbind at 1, M_bind at 1, lift at 1, amax.
  cbn [mret Exc_ret].
  rewrite foldl_min_ltb, foldl_max_gtb. unfold is_active. rewrite existsb_orb.
  destruct (existsb _ (b :: buf) || existsb _ (b :: buf)); [done|].
  unfold in_window. destruct (_ && _); [|done].
  unfold mbind, M_bind. by destruct (process_burst data st) as [[e|[]] st1].
Qed.

(** The loop is the extractor followed by the body: it runs the body on the
    accepted bursts in order, stops at the first exception, and prints the
    totals at the end of the input. *)
Lemma main_loop_factors (bufs : list (list Z)) (data : list Z) (st : State) :
  main_loop bufs data st = run_bursts (accepted_bursts bufs data) st.
Proof.
  revert data st. induction bufs as [|buf bufs IH]; intros data st; [done|].
  rewrite main_loop_cons. cbn [accepted_bursts].
  destruct (length buf =? 0)%nat; [done|].
  destruct (is_active buf); [apply IH|].
  destruct (in_window data); [|apply IH].
  cbn [run_bursts]. unfold mbind, M_bind.
  destruct (process_burst data st) as [[e|[]] st1]; [done|apply IH].
Qed.

Lemma in_window_nil : in_window [] = false.
Proof. reflexivity. Qed.

(** A silent input: every chunk is quiet.  Nothing is demodulated, the run
    prints its totals and exits. *)
Theorem quiet_input_no_burst (bufs : list (list Z)) (st : State) :
  Forall (fun buf => is_active buf = false) bufs ->
  main_loop bufs [] st = summary st.
Proof.
  intros H. rewrite main_loop_factors.
  replace (accepted_bursts bufs []) with (@nil (list Z)); [done|].
  induction H as [|buf bufs Hb H IH]; [done|]. cbn [accepted_bursts].
  rewrite Hb, in_window_nil. by destruct (length buf =? 0)%nat.
Qed.

Lemma quiet_input_no_burst_witness :
  main_loop [replicate 32 128; replicate 32 130; [119; 136]] [] init = summary init.
Proof.
  apply (quiet_input_no_burst [replicate 32 128; replicate 32 130; [119; 136]] init).
  repeat constructor.
Defined.

(** A burst that the end of the input cuts short: when only active chunks
    are left, what was collected is never demodulated. *)
Theorem unfinished_burst_lost (bufs : list (list Z)) (data : list Z) (st : State) :
  Forall (fun buf => is_active buf = true) bufs ->
  main_loop bufs data st = summary st.
Proof.
  intros H. rewrite main_loop_factors.
  replace (accepted_bursts bufs data) with (@nil (list Z)); [done|].
  revert data. induction H as [|buf bufs Hb H IH]; intros data; [done|].
  cbn [accepted_bursts]. rewrite Hb. by destruct (length buf =? 0)%nat.
Qed.

Lemma unfinished_burst_lost_witness :
  main_loop (replicate 9 (replicate 32 255)) (replicate 32 0) init = summary init.
Proof.
  apply (unfinished_burst_lost (replicate 9 (replicate 32 255)) (replicate 32 0) init).
  repeat constructor.
Defined.

Lemma accepted_bursts_active (acts bufs : list (list Z)) (data : list Z) :
  Forall (fun buf => is_active buf = true) acts ->
  accepted_bursts (acts ++ bufs) data = accepted_bursts bufs (data ++ concat acts).
Proof.
  intros H. revert data. induction H as [|buf acts Hb H IH]; intros data.
  - by rewrite app_nil_r.
  - cbn [app accepted_bursts concat]. rewrite Hb.
    destruct buf as [|b buf]; [done|]. cbn [length Nat.eqb].
    by rewrite IH, app_assoc.
Qed.

(** A run of active chunks that a quiet chunk ends with fewer than 240 or
    with 1600 samples or more is dropped without a trace: the loop goes on
    as if it started at the chunk after the quiet one. *)
Theorem malformed_burst_dropped (acts rest : list (list Z)) (quiet : list Z)
    (st : State) :
  Forall (fun buf => is_active buf = true) acts ->
  quiet <> [] -> is_active quiet = false ->
  in_window (concat acts) = false ->
  main_loop (acts ++ quiet :: rest) [] st = main_loop rest [] st.
Proof.
  intros Ha Hq Hn Hw. rewrite !main_loop_factors. f_equal.
  rewrite accepted_bursts_active by done. cbn [app accepted_bursts].
  rewrite Hn, Hw. by destruct quiet.
Qed.

Lemma malformed_burst_dropped_witness :
  main_loop (replicate 7 (replicate 32 255) ++ replicate 32 128 :: [replicate 32 128]) [] init
  = main_loop [replicate 32 128] [] init.
Proof.
  apply (malformed_burst_dropped (replicate 7 (replicate 32 255))
           [replicate 32 128] (replicate 32 128) init).
  - repeat constructor.
  - discriminate.
  - reflexivity.
  - reflexivity.
Defined.

(** A run of active chunks that a quiet chunk ends with 240 to 1599 samples
    is one burst: it goes through the loop body, and the loop goes on after
    it. *)
Lemma burst_accepted (acts rest : list (list Z)) (quiet : list Z) (st : State) :
  Forall (fun buf => is_active buf = true) acts ->
  quiet <> [] -> is_active quiet = false ->
  in_window (concat acts) = true ->
  main_loop (acts ++ quiet :: rest) [] st
  = (process_burst (concat acts);; main_loop rest []) st.
Proof.
  intros Ha Hq Hn Hw. rewrite main_loop_factors.
  rewrite accepted_bursts_active by done. cbn [app accepted_bursts].
  rewrite Hn, Hw. destruct quiet as [|q quiet]; [done|]. cbn [length Nat.eqb run_bursts].
  unfold mbind, M_bind. destruct (process_burst _ st) as [[e|[]] st1]; [done|].
  by rewrite main_loop_factors.
Qed.

Lemma read_chunks_nil (fuel : nat) : read_chunks fuel [] = [].
Proof. by destruct fuel. Qed.

Lemma read_chunks_full (fuel : nat) (stdin : list Z) :
  full_reads (read_chunks fuel stdin).
Proof.
  revert stdin. induction fuel as [|fuel IH]; intros stdin; [done|].
  destruct stdin as [|b stdin]; [done|].
  cbn [read_chunks full_reads]. split; [|apply IH].
  intros Hne. rewrite length_take.
  destruct (drop 32 (b :: stdin)) as [|c rest] eqn:E.
  - by rewrite read_chunks_nil in Hne.
  - assert (length (drop 32 (b :: stdin)) = S (length rest)) by by rewrite E.
    rewrite length_drop in *. lia.
Qed.

Lemma accepted_bursts_whole_chunks (bufs : list (list Z)) (data : list Z) :
  full_reads bufs ->
  (length data mod 32 = 0)%nat ->
  Forall (fun d => (length d mod 32 = 0)%nat /\ (256 <= length d <= 1568)%nat)
         (accepted_bursts bufs data).
Proof.
  revert data. induction bufs as [|buf bufs IH]; intros data Hf Hd; [done|].
  destruct Hf as [Hb Hf]. cbn [accepted_bursts].
  destruct (length buf =? 0)%nat; [done|].
  destruct (is_active buf).
  { destruct bufs as [|buf' bufs]; [done|]. apply IH; [done|].
    rewrite length_app, Hb by done. rewrite <- Nat.Div0.add_mod_idemp_l, Hd. done. }
  destruct (in_window data) eqn:Hw; [|by apply IH].
  constructor; [|by apply IH].
  unfold in_window in Hw.
  change ADC_SAMPLES_FOR_3_BYTE_MSG with 240 in Hw.
  change ADC_SAMPLES_FOR_TOO_LONG_MSG with 1600 in Hw.
  apply andb_true_iff in Hw as [H1%Z.leb_le H2%Z.ltb_lt].
  split; [done|].
  pose proof (Nat.div_mod_eq (length data) 32). lia.
Qed.

Lemma main_run_bursts (stdin : list Z) :
  main stdin = run_bursts (accepted_bursts (chunks stdin) []) started.
Proof. unfold main. rewrite <- main_loop_factors. reflexivity. Qed.

Lemma accepted_bursts_chunks (stdin : list Z) :
  Forall (fun d => (length d mod 32 = 0)%nat /\ (256 <= length d <= 1568)%nat)
         (accepted_bursts (chunks stdin) []).
Proof. apply accepted_bursts_whole_chunks; [apply read_chunks_full | done]. Qed.

(** A run is the loop body on the bursts the extractor accepts, in order,
    up to the first exception, then the totals: what is accepted does not
    depend on what the body does.  With reads of 32 samples (every read but
    the last one is full) every burst that reaches the demodulator is a
    whole number of reads, 8 at least and 49 at most: the window of lines
    27-28 and 77 (240 to 1599 samples) is in effect 256 to 1568 samples. *)
Theorem accepted_burst_lengths (stdin : list Z) :
  main stdin = run_bursts (accepted_bursts (chunks stdin) []) started
  /\ Forall (fun d => (length d mod 32 = 0)%nat /\ (256 <= length d <= 1568)%nat)
            (accepted_bursts (chunks stdin) []).
Proof. split; [apply main_run_bursts | apply accepted_bursts_chunks]. Qed.

(** ** Counters *)

Lemma process_burst_unfold (data : list Z) (st : State) :
  process_burst data st =
    match demodulate data with
    | inl e => (inl e, st)
    | inr data_frame => process_frame data_frame st
    end.
Proof. unfold process_burst, mbind, M_bind, lift. by destruct (demodulate data). Qed.

Lemma check_crc_step (data_frame : list Z) (n : Z) :
  snd (check_crc data_frame n) = n \/ snd (check_crc data_frame n) = n + 1.
Proof.
  unfold check_crc. destruct (_ <=? _)%nat; [by left|].
  destruct (_ =? _); [by left | by right].
Qed.

Lemma process_burst_counts (data : list Z) (st : State) :
  let r := process_burst data st in
  (count_msg (snd r) = count_msg st \/ count_msg (snd r) = count_msg st + 1)
  /\ count_crc_err st <= count_crc_err (snd r)
  /\ count_crc_err (snd r) - count_crc_err st <= count_msg (snd r) - count_msg st
  /\ (fst r = inr tt -> count_msg (snd r) = count_msg st + 1).
Proof.
  intros r. subst r. rewrite process_burst_unfold.
  destruct (demodulate data) as [e|data_frame]; cbn [fst snd].
  { repeat split; first [lia | done]. }
  rewrite process_frame_count_msg, process_frame_count_crc_err.
  destruct (check_crc_step data_frame (count_crc_err st)) as [-> | ->];
    repeat split; first [lia | done].
Qed.

Lemma summary_unfold (st : State) :
  summary st
  = (inr tt, print (CrcErrorMsgCount (count_crc_err st))
               (print (TotalMsgCount (count_msg st)) st)).
Proof. reflexivity. Qed.

Lemma run_bursts_counts (bursts : list (list Z)) (st : State) :
  let r := run_bursts bursts st in
  count_msg st <= count_msg (snd r) <= count_msg st + Z.of_nat (length bursts)
  /\ count_crc_err st <= count_crc_err (snd r)
  /\ count_crc_err (snd r) - count_crc_err st <= count_msg (snd r) - count_msg st
  /\ (fst r = inr tt ->
      count_msg (snd r) = count_msg st + Z.of_nat (length bursts)
      /\ exists out,
           stdout (snd r)
           = out ++ [TotalMsgCount (count_msg (snd r));
                     CrcErrorMsgCount (count_crc_err (snd r))]).
Proof.
  revert st. induction bursts as [|data bursts IH]; intros st r; subst r.
  - rewrite summary_unfold. cbn. repeat split; try lia.
    exists (stdout st). by rewrite <- app_assoc.
  - cbn [run_bursts]. unfold mbind, M_bind.
    pose proof (process_burst_counts data st) as Hb. cbv zeta in Hb.
    destruct (process_burst data st) as [[e|[]] st1]; cbn [fst snd] in *.
    + destruct Hb as (Hm & Hc & Hd & _). cbn [length].
      repeat split; first [lia | done].
    + destruct Hb as (_ & Hc & Hd & Hm). specialize (Hm eq_refl).
      specialize (IH st1). cbv zeta in IH.
      destruct IH as (Hm1 & Hc1 & Hd1 & Hr). cbn [length].
      repeat split; try lia.
      * destruct (Hr ltac:(assumption)) as [-> _]. lia.
      * by destruct (Hr ltac:(assumption)) as [_ Hout].
Qed.

(** The totals of a run.  Whatever the input, and however the run ends,
    the count of CRC errors is at most the count of messages, which is at
    most the number of accepted bursts; when the run ends at the end of
    the input every accepted burst was counted, and the last two lines
    printed are the two totals. *)
Theorem main_totals (stdin : list Z) :
  let r := main stdin in
  0 <= count_crc_err (snd r) <= count_msg (snd r)
  /\ count_msg (snd r) <= Z.of_nat (length (accepted_bursts (chunks stdin) []))
  /\ (fst r = inr tt ->
      count_msg (snd r) = Z.of_nat (length (accepted_bursts (chunks stdin) []))
      /\ exists out,
           stdout (snd r)
           = out ++ [TotalMsgCount (count_msg (snd r));
                     CrcErrorMsgCount (count_crc_err (snd r))]).
Proof.
  intros r. subst r.
  rewrite main_run_bursts.
  pose proof (run_bursts_counts (accepted_bursts (chunks stdin) []) started) as H.
  cbv zeta in H. change (count_msg started) with 0 in H.
  change (count_crc_err started) with 0 in H.
  destruct H as (Hm & Hc & Hd & Hr). repeat split; try lia.
  - destruct (Hr ltac:(assumption)) as [-> _]. lia.
  - by destruct (Hr ltac:(assumption)) as [_ Hout].
Qed.

Lemma main_totals_witness :
  let stdin := burst2 ++ replicate 32 128 in
  let r := main stdin in
  count_msg (snd r) = Z.of_nat (length (accepted_bursts (chunks stdin) []))
  /\ exists out,
       stdout (snd r)
       = out ++ [TotalMsgCount (count_msg (snd r));
                 CrcErrorMsgCount (count_crc_err (snd r))].
Proof.
  intros stdin r.
  destruct (main_totals stdin) as (_ & _ & H). apply H. vm_compute. reflexivity.
Defined.

(** ** Frame length *)

Lemma range_length_10 (start stop : nat) :
  length (range start stop 10) = ((stop - start + 9) / 10)%nat.
Proof.
  set (l := range start stop 10). set (n := ((stop - start + 9) / 10)%nat).
  assert (Hn : forall k, (k < n)%nat <-> (start + k * 10 < stop)%nat).
  { intros k. subst n. pose proof (Nat.div_mod_eq (stop - start + 9) 10).
    pose proof (Nat.mod_upper_bound (stop - start + 9) 10). lia. }
  assert (Hk : forall k, is_Some (l !! k) <-> (start + k * 10 < stop)%nat).
  { intros k. subst l. rewrite range_lookup by lia.
    destruct (Nat.ltb_spec (start + k * 10) stop); split; intros Hs;
      first [lia | done | by destruct Hs]. }
  destruct (Nat.lt_trichotomy (length l) n) as [Hlt | [Heq | Hgt]]; [|done|].
  - apply Hn, Hk, lookup_lt_is_Some in Hlt. lia.
  - apply lookup_lt_is_Some, Hk, Hn in Hgt. lia.
Qed.

Lemma bit_at_01 (bits : list bool) (k : nat) : 0 <= bit_at bits k <= 1.
Proof. unfold bit_at, bit. destruct (default false (bits !! k)); lia. Qed.

Lemma byte_msb_first_byte (bits : list bool) (j : nat) :
  is_byte (byte_msb_first bits j).
Proof.
  unfold is_byte, byte_msb_first.
  pose proof (bit_at_01 bits (8 * j + 0)). pose proof (bit_at_01 bits (8 * j + 1)).
  pose proof (bit_at_01 bits (8 * j + 2)). pose proof (bit_at_01 bits (8 * j + 3)).
  pose proof (bit_at_01 bits (8 * j + 4)). pose proof (bit_at_01 bits (8 * j + 5)).
  pose proof (bit_at_01 bits (8 * j + 6)). pose proof (bit_at_01 bits (8 * j + 7)).
  lia.
Qed.

Lemma pack_loop_bytes (n : nat) (bits : list bool) :
  Forall is_byte (pack_loop n bits).
Proof.
  apply Forall_lookup. intros j b Hj.
  assert (j < n)%nat as Hlt.
  { apply lookup_lt_Some in Hj. by rewrite pack_loop_length in Hj. }
  rewrite pack_loop_lookup, pack_byte_value in Hj by done.
  injection Hj as <-. apply byte_msb_first_byte.
Qed.

(** The length of a frame is decided by the span of the burst.  A span of
    at most 10 samples leaves no bit after the start of frame, and the
    packing of an empty list raises [TypeError]; a longer span gives a frame
    of ceil((ceil(span / 10) - 1) / 8) bytes, each of them in 0..255. *)
Theorem frame_length_from_span (data : list Z) (sp : Span) :
  burst_span data = inr sp ->
  ((sp_x_last sp <= sp_x_first sp + 10)%nat -> demodulate data = inl TypeError)
  /\ ((sp_x_first sp + 10 < sp_x_last sp)%nat ->
      exists data_frame,
        demodulate data = inr data_frame
        /\ length data_frame
           = (((sp_x_last sp - sp_x_first sp + 9) / 10 - 1 + 7) / 8)%nat
        /\ Forall is_byte data_frame).
Proof.
  intros Hsp. pose proof (symbol_bits_inr data sp Hsp) as Hb. cbv zeta in Hb.
  unfold demodulate. rewrite Hb. cbn [mbind Exc_bind].
  set (bits := map _ _).
  assert (Hl : length bits = ((sp_x_last sp - sp_x_first sp + 9) / 10)%nat).
  { subst bits. by rewrite length_map, range_length_10. }
  pose proof (Nat.div_mod_eq (sp_x_last sp - sp_x_first sp + 9) 10) as Hdm.
  pose proof (Nat.mod_upper_bound (sp_x_last sp - sp_x_first sp + 9) 10) as Hmu.
  split; intros Hs.
  - assert (drop 1 bits = []) as ->; [|done].
    apply nil_length_inv. rewrite length_drop. lia.
  - rewrite packbits_inr by (rewrite length_drop; lia).
    eexists. split; [done|]. split; [|apply pack_loop_bytes].
    by rewrite pack_loop_length, length_drop, Hl.
Qed.

Lemma frame_length_from_span_witness :
  exists data_frame,
    demodulate burst2 = inr data_frame
    /\ length data_frame = (((35 - 1 + 9) / 10 - 1 + 7) / 8)%nat
    /\ Forall is_byte data_frame.
Proof.
  destruct (frame_length_from_span burst2 span2) as [_ H].
  - vm_compute. reflexivity.
  - apply H. cbn. lia.
Defined.

Lemma data_inv_involutive (data : list Z) : data_inv (data_inv data) = data.
Proof.
  unfold data_inv. rewrite <- list_fmap_compose.
  rewrite <- (list_fmap_id data) at 2. apply list_fmap_ext. intros _ d _. cbn. lia.
Qed.

(** The polarity step.  After it the first low peak comes no later than
    the first high peak and is the start of the span, where the first bit is
    decided; the high peaks are peaks of the signal that is sampled and the
    low peaks are peaks of its inverse. *)
Theorem span_starts_at_low_peak (data : list Z) (sp : Span) :
  burst_span data = inr sp ->
  exists lo0 hi0 height_hi height_lo,
    index_first (sp_peaks_lo sp) = inr lo0
    /\ index_first (sp_peaks_hi sp) = inr hi0
    /\ (lo0 <= hi0)%nat
    /\ sp_x_first sp = lo0
    /\ sp_peaks_hi sp = find_peaks (sp_data sp) height_hi
    /\ sp_peaks_lo sp = find_peaks (data_inv (sp_data sp)) height_lo.
Proof.
  unfold burst_span. intros H.
  apply Exc_bind_inr in H as (PEAK_MIN & _ & H).
  apply Exc_bind_inr in H as (PEAK_MAX & _ & H).
  cbv zeta in H.
  apply Exc_bind_inr in H as (hi0 & Hhi & H).
  apply Exc_bind_inr in H as (lo0 & Hlo & H).
  destruct (Nat.ltb_spec hi0 lo0) as [Hlt|Hge].
  - apply Exc_bind_inr in H as (hi0' & Hf1 & H).
    apply Exc_bind_inr in H as (lo0' & Hf2 & H).
    apply Exc_bind_inr in H as (hi1 & _ & H).
    apply Exc_bind_inr in H as (lo1 & _ & H).
    injection H as <-. cbn [sp_peaks_lo sp_peaks_hi sp_x_first sp_data].
    rewrite Hf1 in Hlo. rewrite Hf2 in Hhi. simplify_eq.
    eexists hi0, lo0, _, _. rewrite data_inv_involutive.
    repeat split; try done; lia.
  - apply Exc_bind_inr in H as (hi0' & Hf1 & H).
    apply Exc_bind_inr in H as (lo0' & Hf2 & H).
    apply Exc_bind_inr in H as (hi1 & _ & H).
    apply Exc_bind_inr in H as (lo1 & _ & H).
    injection H as <-. cbn [sp_peaks_lo sp_peaks_hi sp_x_first sp_data].
    rewrite Hf1 in Hhi. rewrite Hf2 in Hlo. simplify_eq.
    eexists lo0, hi0, _, _. repeat split; try done; lia.
Qed.

Lemma span_starts_at_low_peak_witness :
  exists lo0 hi0 height_hi height_lo,
    index_first (sp_peaks_lo span2) = inr lo0
    /\ index_first (sp_peaks_hi span2) = inr hi0
    /\ (lo0 <= hi0)%nat
    /\ sp_x_first span2 = lo0
    /\ sp_peaks_hi span2 = find_peaks (sp_data span2) height_hi
    /\ sp_peaks_lo span2 = find_peaks (data_inv (sp_data span2)) height_lo.
Proof. apply (span_starts_at_low_peak burst2 span2). vm_compute. reflexivity. Defined.

(** ** What the checksum detects *)

Lemma table_nodup : NoDup (mkTable 0x107).
Proof. apply (bool_decide_eq_true_1 (NoDup (mkTable 0x107))). by vm_compute. Qed.

Lemma crc8_byte_byte (crc b : Z) : is_byte crc -> is_byte b -> is_byte (crc8_byte crc b).
Proof.
  intros Hc Hb. unfold crc8_byte.
  by destruct (table_lookup (Z.lxor crc b)) as [_ H]; [apply is_byte_lxor|].
Qed.

Lemma crc8_fold_byte (data : list Z) (crc : Z) :
  is_byte crc -> Forall is_byte data -> is_byte (foldl crc8_byte crc data).
Proof.
  intros Hc Hd. revert crc Hc. induction Hd as [|x data Hx Hd IH]; intros crc Hc; [done|].
  cbn [foldl]. by apply IH, crc8_byte_byte.
Qed.

Lemma lxor_cancel_r (a b c : Z) : Z.lxor a c = Z.lxor b c -> a = b.
Proof.
  intros H. apply (f_equal (fun x => Z.lxor x c)) in H.
  by rewrite !Z.lxor_assoc, Z.lxor_nilpotent, !Z.lxor_0_r in H.
Qed.

Lemma crc8_table_inj (i j : Z) :
  is_byte i -> is_byte j ->
  Nat.iter 8 crc8_shift i = Nat.iter 8 crc8_shift j -> i = j.
Proof.
  intros Hi Hj He.
  destruct (table_lookup i Hi) as [Ti _], (table_lookup j Hj) as [Tj _].
  rewrite <- He in Tj.
  pose proof (NoDup_lookup _ _ _ _ table_nodup Ti Tj) as Hn.
  unfold is_byte in *. lia.
Qed.

(** One step of the checksum is one-to-one in the byte and in the register. *)
Lemma crc8_byte_inj_byte (crc a b : Z) :
  is_byte crc -> is_byte a -> is_byte b ->
  crc8_byte crc a = crc8_byte crc b -> a = b.
Proof.
  intros Hc Ha Hb He. unfold crc8_byte in He.
  apply crc8_table_inj in He; [|by apply is_byte_lxor..].
  rewrite !(Z.lxor_comm crc) in He. by apply lxor_cancel_r in He.
Qed.

Lemma crc8_byte_inj_crc (c1 c2 x : Z) :
  is_byte c1 -> is_byte c2 -> is_byte x ->
  crc8_byte c1 x = crc8_byte c2 x -> c1 = c2.
Proof.
  intros H1 H2 Hx He. unfold crc8_byte in He.
  apply crc8_table_inj in He; [|by apply is_byte_lxor..].
  by apply lxor_cancel_r in He.
Qed.

Lemma crc8_fold_inj (data : list Z) (c1 c2 : Z) :
  is_byte c1 -> is_byte c2 -> Forall is_byte data ->
  foldl crc8_byte c1 data = foldl crc8_byte c2 data -> c1 = c2.
Proof.
  intros H1 H2 Hd. revert c1 c2 H1 H2.
  induction Hd as [|x data Hx Hd IH]; intros c1 c2 H1 H2 He; [done|].
  cbn [foldl] in He. apply IH in He; [|by apply crc8_byte_byte..].
  by apply crc8_byte_inj_crc in He.
Qed.

(** Two messages of the same length that differ in one byte have different
    checksums. *)
Lemma crc8_spec_one_byte (pre post : list Z) (a b : Z) :
  Forall is_byte pre -> Forall is_byte post -> is_byte a -> is_byte b ->
  a <> b ->
  crc8_spec (pre ++ a :: post) <> crc8_spec (pre ++ b :: post).
Proof.
  intros Hpre Hpost Ha Hb Hab He. unfold crc8_spec in He.
  rewrite !foldl_app in He. cbn [foldl] in He.
  assert (Hc : is_byte (foldl crc8_byte 0x6f pre)).
  { apply crc8_fold_byte; [unfold is_byte; lia | done]. }
  apply crc8_fold_inj in He; [|by apply crc8_byte_byte..|done].
  by apply crc8_byte_inj_byte in He.
Qed.

(** A message of three bytes or more followed by its checksum is a frame
    that checks: [OK ], no error counted. *)
Theorem checksum_appended_checks (msg : list Z) (n : Z) :
  Forall is_byte msg -> (3 <= length msg)%nat ->
  is_byte (crc_func msg)
  /\ check_crc (msg ++ [crc_func msg]) n = ("OK ", n).
Proof.
  intros Hb Hl. rewrite check_crc_snoc by done.
  rewrite crc_func_spec by done. rewrite Z.eqb_refl. split; [|done].
  apply crc8_fold_byte; [unfold is_byte; lia | done].
Qed.

Lemma checksum_appended_checks_witness :
  is_byte (crc_func [0xcc; 0x40; 0x0d])
  /\ check_crc ([0xcc; 0x40; 0x0d] ++ [crc_func [0xcc; 0x40; 0x0d]]) 0 = ("OK ", 0).
Proof.
  apply (checksum_appended_checks [0xcc; 0x40; 0x0d] 0).
  - unfold is_byte. repeat constructor; lia.
  - cbn. lia.
Defined.

(** The checksum catches every corruption that stays within one byte: of
    two frames of more than 3 bytes that differ in exactly one byte (a byte
    of the message or the checksum byte itself), if one is [OK ] the other
    is [ERR] and counts as an error. *)
Theorem one_byte_corruption_detected (pre post : list Z) (a b n : Z) :
  Forall is_byte pre -> Forall is_byte post -> is_byte a -> is_byte b ->
  a <> b ->
  (3 < length (pre ++ a :: post))%nat ->
  check_crc (pre ++ a :: post) n = ("OK ", n) ->
  check_crc (pre ++ b :: post) n = ("ERR", n + 1).
Proof.
  intros Hpre Hpost Ha Hb Hab Hl Hok.
  destruct (rev post) as [|c tsop] eqn:E.
  - apply (f_equal (@rev Z)) in E. rewrite rev_involutive in E. cbn in E. subst post.
    rewrite length_app in Hl. cbn [length] in Hl.
    rewrite check_crc_snoc in Hok |- * by (done || lia).
    destruct (Z.eqb_spec (crc8_spec pre) a) as [He|]; [|done].
    by rewrite (proj2 (Z.eqb_neq _ _)) by congruence.
  - apply (f_equal (@rev Z)) in E. rewrite rev_involutive in E. cbn [rev] in E.
    subst post. apply Forall_app in Hpost as [Hpost _].
    change (pre ++ a :: rev tsop ++ [c]) with (pre ++ (a :: rev tsop) ++ [c]) in *.
    change (pre ++ b :: rev tsop ++ [c]) with (pre ++ (b :: rev tsop) ++ [c]).
    rewrite app_assoc in Hok, Hl. rewrite app_assoc.
    rewrite length_app in Hl. cbn [length] in Hl.
    pose proof (crc8_spec_one_byte pre (rev tsop) a b Hpre Hpost Ha Hb Hab) as Hne.
    rewrite check_crc_snoc in Hok |- *;
      try (rewrite length_app in *; cbn [length] in *; lia);
      try (apply Forall_app; split; [done|by constructor]).
    destruct (Z.eqb_spec (crc8_spec (pre ++ a :: rev tsop)) c) as [He|]; [|done].
    by rewrite (proj2 (Z.eqb_neq _ _)) by congruence.
Qed.

Lemma one_byte_corruption_detected_witness :
  check_crc ([0xcc] ++ 0x41 :: [0x0d; 141]) 0 = ("ERR", 0 + 1).
Proof.
  apply (one_byte_corruption_detected [0xcc] [0x0d; 141] 0x40 0x41 0).
  - unfold is_byte. repeat constructor; lia.
  - unfold is_byte. repeat constructor; lia.
  - unfold is_byte. lia.
  - unfold is_byte. lia.
  - discriminate.
  - cbn. lia.
  - reflexivity.
Defined.

(** ** The outcomes of the decoder *)

Lemma report_unfold (key : Z) (t : Telemetry) (st : State) :
  report key t st = (inr tt, del key (print (DecodLine key t) st)).
Proof. reflexivity. Qed.

(** A completed message ends in one of four ways: a static key prints the
    packet only; any other key prints the packet and one telemetry line and
    deletes the message (the switch message may set [str1] first); the
    switch message with no label to print raises [UnboundLocalError]; a
    switch message shorter than 3 bytes raises [IndexError]. *)
Lemma decoder_cases (key : Z) (p : list Z) (st : State) :
  key <> 0 ->
  data_packets st !! key = Some p ->
  let st1 := print (PacketLine key p) st in
  let r := decoder (Some key) st in
  (cmd_of key p ∈ static_keys /\ r = (inr tt, st1))
  \/ ((cmd_of key p ∉ static_keys)
      /\ exists t st2,
           (st2 = st1 \/ exists s, st2 = set_str1 s st1)
           /\ r = (inr tt, del key (print (DecodLine key t) st2)))
  \/ (cmd_of key p ∈ switch_keys
      /\ (exists b, p !! 2%nat = Some b /\ Z.land (Z.shiftr b 4) 0x03 = 3)
      /\ str1 st = None
      /\ r = (inl UnboundLocalError, st1))
  \/ (cmd_of key p ∈ switch_keys
      /\ (length p < 3)%nat
      /\ r = (inl IndexError, st1)).
Proof.
  intros Hk Hd st1 r.
  assert (Hr : r = decoder (Some key) st) by reflexivity.
  clearbody r. revert Hr. unfold decoder. cbn [truthy].
  rewrite (proj2 (Z.eqb_neq _ _) Hk). cbn [negb].
  change (int_of (Some key)) with key. cbv zeta.
  unfold mbind at 1, M_bind at 1, packet. rewrite Hd.
  unfold mbind at 1, M_bind at 1, modify at 1. fold st1.
  set (cmd := cmd_of key p) in *.
  destruct (Z.eqb_spec cmd 0x0d4a0c) as [E|N1].
  { intros ->. left. split; [rewrite E; set_solver|]. by destruct (array_equal p _). }
  destruct (Z.eqb_spec cmd 0x1a0102) as [E|N2].
  { intros ->. left. split; [rewrite E; set_solver|]. by destruct (array_equal p _). }
  destruct (Z.eqb_spec cmd 0x260102) as [E|N3].
  { intros ->. left. split; [rewrite E; set_solver|]. by destruct (array_equal p _). }
  destruct (Z.eqb_spec cmd 0x3f0200) as [E|N4].
  { intros ->. left. split; [rewrite E; set_solver|]. by destruct (array_equal p _). }
  destruct (Z.eqb_spec cmd 0x3f0208) as [E|N5].
  { intros ->. left. split; [rewrite E; set_solver|]. by destruct (array_equal p _). }
  assert (Hns : cmd ∉ static_keys).
  { unfold static_keys. rewrite !not_elem_of_cons. repeat split; try done.
    apply not_elem_of_nil. }
  repeat match goal with
         | |- context [if (?a || ?b) then _ else _] =>
             destruct (a || b) eqn:?;
             [ try (intros ->; right; left; split; [exact Hns|];
                    eexists _, st1; split; [by left|]; reflexivity) | ]
         end.
  2: { intros ->. right. left. split; [exact Hns|].
       eexists _, st1. split; [by left|]. reflexivity. }
  (* the switch message *)
  assert (Hsw : cmd ∈ switch_keys).
  { unfold switch_keys.
    match goal with H : (cmd =? _) || (cmd =? _) = true |- _ =>
      apply orb_true_iff in H as [->%Z.eqb_eq | ->%Z.eqb_eq] end; set_solver. }
  unfold mbind at 1, M_bind at 1, lift, getitem.
  destruct (p !! 2%nat) as [b|] eqn:Eb.
  2: { intros ->. right. right. right. split; [exact Hsw|]. split; [|done].
       apply lookup_ge_None in Eb. lia. }
  cbn [mret Exc_ret].
  set (sel := Z.land (Z.shiftr b 4) 0x03).
  destruct (Z.eqb_spec sel 0) as [S0|S0].
  { intros ->. right. left. split; [exact Hns|]. eexists _, _.
    split; [right; by eexists|]. done. }
  destruct (Z.eqb_spec sel 1) as [S1|S1].
  { intros ->. right. left. split; [exact Hns|]. eexists _, _.
    split; [right; by eexists|]. done. }
  destruct (Z.eqb_spec sel 2) as [S2|S2].
  { intros ->. right. left. split; [exact Hns|]. eexists _, _.
    split; [right; by eexists|]. done. }
  unfold mbind at 1, M_bind at 1. cbn [mret M_ret].
  unfold mbind at 1, M_bind at 1, local.
  change (str1 st1) with (str1 st).
  destruct (str1 st) as [s|] eqn:Es.
  { intros ->. right. left. split; [exact Hns|]. eexists _, st1.
    split; [by left|]. reflexivity. }
  intros ->. right. right. left. split; [exact Hsw|]. split; [|done].
  exists b. split; [done|].
  assert (0 <= sel < 4).
  { subst sel. change 3 with (Z.ones 2). rewrite Z.land_ones by lia.
    apply Z.mod_pos_bound. lia. }
  fold sel. lia.
Qed.

(** ** One frame, step by step *)

Lemma process_frame_unfold (data_frame : list Z) (st : State) :
  let chk := check_crc data_frame (count_crc_err st) in
  let st0 := set_count_crc_err (snd chk) (set_count_msg (count_msg st + 1) st) in
  let dev_id := resolve_dev_id data_frame in
  process_frame data_frame st =
    match print_frame dev_id (fst chk) data_frame (snd (combine dev_id data_frame st0)) with
    | (inl e, st2) => (inl e, st2)
    | (inr _, st2) => decoder (fst (combine dev_id data_frame st0)) st2
    end.
Proof.
  intros chk st0 dev_id. subst st0 dev_id chk.
  unfold process_frame, frame_body, mbind, M_bind, modify.
  cbn [count_crc_err set_count_msg].
  destruct (check_crc data_frame (count_crc_err st)) as [crc_text n]. cbn [fst snd].
  destruct (combine _ data_frame _) as [c st1]. cbn [fst snd].
  by destruct (print_frame _ crc_text data_frame st1) as [[e|[]] st2].
Qed.

Lemma slice_4_7_length (data_frame : list Z) :
  length data_frame = 8%nat -> length (slice 4 7 data_frame) = 3%nat.
Proof. intros H. unfold slice. rewrite length_take, length_drop. lia. Qed.

Lemma resolve_dev_id_range (data_frame : list Z) (d : Z) :
  resolve_dev_id data_frame = Some d -> 0 <= d < 64.
Proof.
  assert (Hr : forall b, 0 <= Z.land (Z.shiftr b 0) 0x3f < 64).
  { intros b. rewrite Z.shiftr_0_r. change 0x3f with (Z.ones 6).
    rewrite Z.land_ones by lia. apply Z.mod_pos_bound. lia. }
  unfold resolve_dev_id.
  destruct data_frame as [|b0 [|b1 [|b2 rest]]]; try done.
  repeat match goal with
         | |- context [if ?b then _ else _] => destruct b
         end; intros [= <-]; apply Hr.
Qed.

(** The reassembler either leaves [data_packets] alone and completes
    nothing, or (device id not 0, frame of 8 bytes) writes the entry of the
    device: the three payload bytes of the frame, alone or appended to what
    the entry held, and completes nothing or that device. *)
Lemma combine_cases (dev_id : option Z) (data_frame : list Z) (st : State) :
  let key := int_of dev_id in
  let c := fst (combine dev_id data_frame st) in
  let st1 := snd (combine dev_id data_frame st) in
  stdout st1 = stdout st /\ str1 st1 = str1 st
  /\ ((c = None /\ data_packets st1 = data_packets st)
      \/ (key <> 0 /\ length data_frame = 8%nat
          /\ (c = None \/ c = Some key)
          /\ (exists s n r, header st1 = (Some s, Some n, Some r))
          /\ exists p,
               data_packets st1 = <[key := p]> (data_packets st)
               /\ (p = slice 4 7 data_frame
                   \/ exists p0, data_packets st !! key = Some p0
                                 /\ p = p0 ++ slice 4 7 data_frame))).
Proof.
  intros key c st1. subst c st1. unfold combine. cbv zeta. fold key.
  destruct (truthy dev_id) eqn:Ht; cbn [andb]; [|by repeat split; try left].
  destruct (Nat.eqb_spec (length data_frame) 8) as [Hl|Hl];
    [|by repeat split; try left].
  assert (Hk : key <> 0).
  { subst key. destruct dev_id as [d|]; [|done]. cbn in *.
    by destruct (Z.eqb_spec d 0). }
  cbn [set_header data_packets].
  repeat match goal with
         | |- context [if ?b then _ else _] => destruct b
         | |- context [match ?o with Some _ => _ | None => _ end] =>
             destruct o eqn:?
         end; cbn [fst snd stdout str1 set_data_packets set_header data_packets];
    (split; [done|]); (split; [done|]);
    first [ left; done
          | right; repeat (split; [first [done | by left | by right | by eexists _, _, _]|]);
            eexists; split; [done|]; first [by left | right; by eexists] ].
Qed.

Lemma decoder_None (st : State) : decoder None st = (inr tt, st).
Proof. reflexivity. Qed.

(** What one frame does to [data_packets], and how its iteration can end. *)
Lemma process_frame_packets (data_frame : list Z) (st : State) :
  let key := int_of (resolve_dev_id data_frame) in
  let d := data_packets st in
  let r := process_frame data_frame st in
  (forall e, fst r = inl e -> e = UnboundLocalError)
  /\ (data_packets (snd r) = d
      \/ (key <> 0 /\ length data_frame = 8%nat
          /\ exists p,
               (p = slice 4 7 data_frame
                \/ exists p0, d !! key = Some p0 /\ p = p0 ++ slice 4 7 data_frame)
               /\ (data_packets (snd r) = <[key := p]> d
                   \/ data_packets (snd r) = delete key d))).
Proof.
  intros key d r. subst r. rewrite process_frame_unfold. cbv zeta.
  set (chk := check_crc data_frame (count_crc_err st)).
  set (st0 := set_count_crc_err _ _).
  set (dev_id := resolve_dev_id data_frame). fold dev_id in key.
  pose proof (combine_cases dev_id data_frame st0) as Hc. cbv zeta in Hc. fold key in Hc.
  destruct (combine dev_id data_frame st0) as [c st1]. cbn [fst snd] in *.
  destruct Hc as (_ & _ & Hc).
  change (data_packets st0) with d in Hc.
  assert (Hpf : exists st2, data_packets st2 = data_packets st1
                  /\ str1 st2 = str1 st1
                  /\ (print_frame dev_id (fst chk) data_frame st1 = (inr tt, st2)
                      \/ print_frame dev_id (fst chk) data_frame st1
                         = (inl UnboundLocalError, st2))).
  { destruct (print_frame_cases dev_id (fst chk) data_frame st1) as [Hf Hn].
    destruct (filtered data_frame).
    - exists st1. rewrite Hf by done. split; [done|]. split; [done|]. by left.
    - destruct (Hn eq_refl) as [[h ->] | [_ ->]].
      + exists (print (DemodLine (int_of dev_id) (fst chk) data_frame h) st1).
        split; [done|]. split; [done|]. by left.
      + exists st1. split; [done|]. split; [done|]. by right. }
  destruct Hpf as (st2 & Hd2 & _ & [-> | ->]).
  2: { split; [by intros e [= <-]|]. cbn [snd]. rewrite Hd2.
       destruct Hc as [[_ ->] | (Hk & Hl & _ & _ & p & -> & Hp)]; [by left|].
       right. repeat split; try done. exists p. split; [done|]. by left. }
  destruct Hc as [[-> Hd1] | (Hk & Hl & Hcc & _ & p & Hd1 & Hp)].
  { rewrite decoder_None. split; [done|]. left. cbn. congruence. }
  destruct Hcc as [-> | ->].
  { rewrite decoder_None. split; [done|]. right. repeat split; try done.
    exists p. split; [done|]. left. cbn. congruence. }
  assert (Hlook : data_packets st2 !! key = Some p).
  { rewrite Hd2, Hd1. apply lookup_insert_eq. }
  assert (Hlen : (3 <= length p)%nat).
  { destruct Hp as [-> | (p0 & _ & ->)]; rewrite ?length_app, slice_4_7_length by done; lia. }
  pose proof (decoder_cases key p st2 Hk Hlook) as Hdec. cbv zeta in Hdec.
  assert (Hdel : delete key (data_packets st2) = delete key d).
  { rewrite Hd2, Hd1. apply delete_insert_eq. }
  destruct Hdec as [[_ ->] | [(_ & t & st3 & Hst3 & ->) | [(_ & _ & _ & ->) | (_ & Hshort & _)]]];
    [| | |lia]; cbn [fst snd].
  - split; [done|]. right. repeat split; try done. exists p. split; [done|].
    left. cbn. congruence.
  - split; [done|]. right. repeat split; try done. exists p. split; [done|].
    right. cbn [del data_packets set_data_packets print].
    by destruct Hst3 as [-> | [s ->]].
  - split; [by intros e [= <-]|]. right. repeat split; try done.
    exists p. split; [done|]. left. cbn. congruence.
Qed.

(** ** Invariants of a run *)

Lemma run_bursts_keeps (I : State -> Prop) :
  (forall data_frame st, I st -> I (snd (process_frame data_frame st))) ->
  (forall l st, I st -> I (print l st)) ->
  forall bursts st, I st -> I (snd (run_bursts bursts st)).
Proof.
  intros Hf Hp bursts. induction bursts as [|data bursts IH]; intros st Hst.
  - rewrite summary_unfold. cbn [snd]. by apply Hp, Hp.
  - cbn [run_bursts]. unfold mbind, M_bind. rewrite process_burst_unfold.
    destruct (demodulate data) as [e|data_frame]; [done|].
    specialize (Hf data_frame st Hst).
    destruct (process_frame data_frame st) as [[e|[]] st1]; [done|]. by apply IH.
Qed.

Lemma main_keeps (I : State -> Prop) (stdin : list Z) :
  (forall data_frame st, I st -> I (snd (process_frame data_frame st))) ->
  (forall l st, I st -> I (print l st)) ->
  I init -> I (snd (main stdin)).
Proof.
  intros Hf Hp Hi. rewrite main_run_bursts.
  apply run_bursts_keeps; try done. unfold started. by repeat apply Hp.
Qed.

Lemma process_frame_keeps_wf (data_frame : list Z) (st : State) :
  wf_packets (data_packets st) ->
  wf_packets (data_packets (snd (process_frame data_frame st))).
Proof.
  intros Hwf.
  destruct (process_frame_packets data_frame st) as [_ H]. cbv zeta in H.
  destruct H as [-> | (Hk & Hl & p & Hp & Hd)]; [done|].
  set (key := int_of (resolve_dev_id data_frame)) in *.
  assert (Hkey : 0 < key < 64).
  { subst key. destruct (resolve_dev_id data_frame) as [d|] eqn:E; [|done].
    apply resolve_dev_id_range in E. cbn in *. lia. }
  assert (Hpl : (3 <= length p)%nat /\ (length p mod 3 = 0)%nat).
  { destruct Hp as [-> | (p0 & Hp0 & ->)].
    - by rewrite slice_4_7_length.
    - apply Hwf in Hp0 as (_ & H3 & Hm).
      rewrite length_app, slice_4_7_length by done. split; [lia|].
      by rewrite <- Nat.Div0.add_mod_idemp_l, Hm. }
  destruct Hd as [-> | ->]; intros k q.
  - rewrite lookup_insert. case_decide; [|apply Hwf]. by intros [= <-]; subst.
  - rewrite lookup_delete. case_decide; [done|apply Hwf].
Qed.

(** [data_packets] only ever holds entries for the device ids 1 to 63, and
    every payload it holds is a positive multiple of 3 bytes long: a frame
    keeps this, and so it holds when a run ends, however it ends. *)
Theorem packets_well_formed :
  (forall data_frame st,
     wf_packets (data_packets st) ->
     wf_packets (data_packets (snd (process_frame data_frame st))))
  /\ (forall stdin, wf_packets (data_packets (snd (main stdin)))).
Proof.
  split; [apply process_frame_keeps_wf|].
  intros stdin. apply (main_keeps (fun st => wf_packets (data_packets st))); try done.
  apply process_frame_keeps_wf.
Qed.

Lemma packets_well_formed_witness :
  let st := set_data_packets {[ 0x0d := [0x16; 0x20; 0x3d] ]} init in
  let data_frame := [0xcc; 0x40; 0x0d; 0x01; 0x00; 0x5c; 0x00; 0x00] in
  wf_packets (data_packets (snd (process_frame data_frame st))).
Proof.
  intros st data_frame.
  apply (proj1 packets_well_formed data_frame st).
  change (data_packets st) with ({[ 0x0d := [0x16; 0x20; 0x3d] ]} : gmap Z (list Z)).
  intros k p [<- <-]%lookup_singleton_Some. cbn. repeat split; lia.
Defined.

(** A frame touches the entry of its own device only. *)
Theorem other_devices_untouched (data_frame : list Z) (st : State) (k : Z) :
  k <> int_of (resolve_dev_id data_frame) ->
  data_packets (snd (process_frame data_frame st)) !! k = data_packets st !! k.
Proof.
  intros Hk.
  destruct (process_frame_packets data_frame st) as [_ H]. cbv zeta in H.
  destruct H as [-> | (_ & _ & p & _ & [-> | ->])]; [done| |].
  - by rewrite lookup_insert_ne.
  - by rewrite lookup_delete_ne.
Qed.

Lemma other_devices_untouched_witness :
  let st := set_data_packets {[ 0x1a := [0x01; 0x02; 0x03] ]} init in
  let data_frame := [0xcc; 0x40; 0x0d; 0xc0; 0x3c; 0x08; 0x1a; 0x00] in
  data_packets (snd (process_frame data_frame st)) !! 0x1a = data_packets st !! 0x1a.
Proof.
  intros st data_frame.
  apply (other_devices_untouched data_frame st 0x1a). vm_compute. discriminate.
Defined.

(** ** How a run can end *)

(** The only exception a frame can raise is [UnboundLocalError]: the
    decoder never misses a key in [data_packets] and never indexes a
    payload out of range. *)
Theorem frame_raises_unbound_local_only (data_frame : list Z) (st : State) :
  fst (process_frame data_frame st) = inr tt
  \/ fst (process_frame data_frame st) = inl UnboundLocalError.
Proof.
  destruct (process_frame_packets data_frame st) as [H _]. cbv zeta in H.
  destruct (fst (process_frame data_frame st)) as [e|[]]; [|by left].
  right. f_equal. by apply H.
Qed.

Lemma burst_span_inl (data : list Z) (e : Exception) :
  burst_span data = inl e -> (data = [] /\ e = ValueError) \/ e = IndexError.
Proof.
  unfold burst_span. destruct data as [|x data]; [intros [= <-]; by left|].
  cbn [amin amax mbind Exc_bind mret Exc_ret]. cbv zeta.
  destruct (peaks_hi_of _ _) as [|h hs]; [intros [= <-]; by right|].
  destruct (peaks_lo_of _ _) as [|l ls]; [intros [= <-]; by right|].
  cbn [index_first mbind Exc_bind mret Exc_ret].
  destruct (index_last_cons h hs) as [h1 Hh], (index_last_cons l ls) as [l1 Hl].
  destruct (h <? l)%nat; cbn [index_first mbind Exc_bind mret Exc_ret];
    by rewrite Hh, Hl.
Qed.

Lemma demodulate_inl (data : list Z) (e : Exception) :
  demodulate data = inl e ->
  (data = [] /\ e = ValueError) \/ e = IndexError \/ e = TypeError.
Proof.
  unfold demodulate. destruct (burst_span data) as [e'|sp] eqn:Hsp.
  - unfold symbol_bits. rewrite Hsp. cbn [mbind Exc_bind]. intros [= <-].
    apply burst_span_inl in Hsp as [?|?]; [by left | right; by left].
  - pose proof (symbol_bits_inr data sp Hsp) as Hb. cbv zeta in Hb. rewrite Hb.
    cbn [mbind Exc_bind]. unfold packbits.
    destruct (drop 1 _); [intros [= <-]; right; by right | done].
Qed.

(** A run ends at the end of its input or with one of three exceptions:
    [IndexError] (a burst without a high or a low peak), [TypeError] (a
    burst that leaves no bit to pack) or [UnboundLocalError]. *)
Theorem main_outcomes (stdin : list Z) :
  fst (main stdin) = inr tt
  \/ fst (main stdin) = inl IndexError
  \/ fst (main stdin) = inl TypeError
  \/ fst (main stdin) = inl UnboundLocalError.
Proof.
  rewrite main_run_bursts. pose proof (accepted_bursts_chunks stdin) as Hl.
  generalize started. induction Hl as [|data bursts [_ Hd] Hl IH]; intros st.
  { by left. }
  cbn [run_bursts]. unfold mbind, M_bind. rewrite process_burst_unfold.
  destruct (demodulate data) as [e|data_frame] eqn:Hdem.
  - apply demodulate_inl in Hdem as [[-> _] | [-> | ->]]; cbn [fst].
    + cbn in Hd. lia.
    + right. by left.
    + right. right. by left.
  - destruct (process_frame_packets data_frame st) as [Hf _]. cbv zeta in Hf.
    destruct (process_frame data_frame st) as [[e|[]] st1]; cbn [fst] in *.
    + rewrite (Hf e eq_refl). right. right. by right.
    + apply IH.
Qed.

(** ** Decoding *)

(** A completed message whose key is not static is consumed: the decoder
    prints the packet and one telemetry line and deletes the entry of the
    device.  The one way out is the switch message that has no label to
    print: [UnboundLocalError] after the packet line, the entry still
    there. *)
Theorem message_consumed (key : Z) (p : list Z) (st : State) :
  key <> 0 ->
  data_packets st !! key = Some p ->
  (3 <= length p)%nat ->
  cmd_of key p ∉ static_keys ->
  let r := decoder (Some key) st in
  (fst r = inr tt
   /\ data_packets (snd r) = delete key (data_packets st)
   /\ exists t, stdout (snd r) = stdout st ++ [PacketLine key p; DecodLine key t])
  \/ (fst r = inl UnboundLocalError
      /\ cmd_of key p ∈ switch_keys
      /\ data_packets (snd r) = data_packets st
      /\ stdout (snd r) = stdout st ++ [PacketLine key p]).
Proof.
  intros Hk Hd Hl Hns r. subst r.
  pose proof (decoder_cases key p st Hk Hd) as H. cbv zeta in H.
  destruct H as [[Hs _] | [(_ & t & st2 & Hst2 & ->) | [(Hsw & _ & _ & ->) | (_ & Hshort & _)]]];
    [done| | |lia].
  - left. split; [done|]. cbn [snd del data_packets set_data_packets print stdout].
    destruct Hst2 as [-> | [s ->]]; cbn [data_packets stdout print set_str1];
      (split; [done|]); exists t; by rewrite <- app_assoc.
  - right. by repeat split.
Qed.

Lemma message_consumed_witness :
  let p := [0x26; 0x40; 0x64] in
  let st := set_data_packets {[ 0x0d := p ]} init in
  let r := decoder (Some 0x0d) st in
  (fst r = inr tt
   /\ data_packets (snd r) = delete 0x0d (data_packets st)
   /\ exists t, stdout (snd r) = stdout st ++ [PacketLine 0x0d p; DecodLine 0x0d t])
  \/ (fst r = inl UnboundLocalError
      /\ cmd_of 0x0d p ∈ switch_keys
      /\ data_packets (snd r) = data_packets st
      /\ stdout (snd r) = stdout st ++ [PacketLine 0x0d p]).
Proof.
  intros p st.
  apply (message_consumed 0x0d p st).
  - discriminate.
  - reflexivity.
  - cbn. lia.
  - vm_compute. intros H.
    repeat (apply elem_of_cons in H as [H|H]; [discriminate H|]).
    by apply elem_of_nil in H.
Defined.

(** A key that has no case in the decoder: the payload is reported as it
    is ([Unknown]) and the message is deleted. *)
Theorem unknown_command (key : Z) (p : list Z) (st : State) :
  key <> 0 ->
  data_packets st !! key = Some p ->
  cmd_of key p ∉ known_keys ->
  decoder (Some key) st
  = (inr tt, del key (print (DecodLine key (Unknown p)) (print (PacketLine key p) st))).
Proof.
  intros Hk Hd Hn. unfold decoder. cbn [truthy].
  rewrite (proj2 (Z.eqb_neq _ _) Hk). cbn [negb].
  change (int_of (Some key)) with key. cbv zeta.
  unfold mbind at 1, M_bind at 1, packet. rewrite Hd.
  unfold mbind at 1, M_bind at 1, modify at 1.
  set (cmd := cmd_of key p) in *.
  unfold known_keys, static_keys in Hn. cbn [app] in Hn.
  rewrite !not_elem_of_cons in Hn.
  repeat match goal with
         | H : _ /\ _ |- _ => destruct H
         end.
  repeat match goal with
         | H : cmd <> ?k |- _ => rewrite (proj2 (Z.eqb_neq cmd k) H); clear H
         end.
  reflexivity.
Qed.

Lemma unknown_command_witness :
  let p := [0x01; 0x02; 0x3c; 0x08; 0x1a; 0x02; 0x00] in
  let st := set_data_packets {[ 0x0d := p ]} init in
  decoder (Some 0x0d) st
  = (inr tt, del 0x0d (print (DecodLine 0x0d (Unknown p)) (print (PacketLine 0x0d p) st))).
Proof.
  intros p st. apply (unknown_command 0x0d p st).
  - discriminate.
  - reflexivity.
  - vm_compute. intros H.
    repeat (apply elem_of_cons in H as [H|H]; [discriminate H|]).
    by apply elem_of_nil in H.
Defined.

Lemma low_bit (b : Z) : negb (Z.land (Z.shiftr b 0) 0x01 =? 0) = Z.odd b.
Proof.
  rewrite Z.shiftr_0_r. change 1 with (Z.ones 1). rewrite Z.land_ones by lia.
  change (2 ^ 1) with 2. rewrite Zmod_odd. by destruct (Z.odd b).
Qed.

Lemma switch_decoder (key b : Z) (p : list Z) (st : State) :
  key <> 0 ->
  data_packets st !! key = Some p ->
  cmd_of key p ∈ switch_keys ->
  p !! 2%nat = Some b ->
  decoder (Some key) st
  = (let sel := Z.land (Z.shiftr b 4) 0x03 in
     (if sel =? 0 then modify (set_str1 "pressed")
      else if sel =? 1 then modify (set_str1 "released from hold")
      else if sel =? 2 then modify (set_str1 "keep hold down")
      else mret tt);;
     s1 ← local str1;
     report key (Switch (if Z.odd b then "lower" else "upper") s1))
      (print (PacketLine key p) st).
Proof.
  intros Hk Hd Hsw Hb. unfold decoder. cbn [truthy].
  rewrite (proj2 (Z.eqb_neq _ _) Hk). cbn [negb].
  change (int_of (Some key)) with key. cbv zeta.
  unfold mbind at 1, M_bind at 1, packet. rewrite Hd.
  unfold mbind at 1, M_bind at 1, modify at 1.
  set (cmd := cmd_of key p) in *.
  assert (Hc : cmd = 0x0d0400 \/ cmd = 0x260400).
  { unfold switch_keys in Hsw.
    apply elem_of_cons in Hsw as [?|Hsw]; [by left|].
    apply elem_of_cons in Hsw as [?|Hsw]; [by right|]. by apply elem_of_nil in Hsw. }
  assert (Hif : forall (A : Type) (x y : A),
            (if (cmd =? 0x0d0400) || (cmd =? 0x260400) then x else y) = x).
  { intros A x y. by destruct Hc as [-> | ->]. }
  replace (cmd =? 0x0d4a0c) with false by (by destruct Hc as [-> | ->]).
  replace (cmd =? 0x1a0102) with false by (by destruct Hc as [-> | ->]).
  replace (cmd =? 0x260102) with false by (by destruct Hc as [-> | ->]).
  replace (cmd =? 0x3f0200) with false by (by destruct Hc as [-> | ->]).
  replace (cmd =? 0x3f0208) with false by (by destruct Hc as [-> | ->]).
  repeat match goal with
         | |- context [if (?a || ?b) then ?x else ?y] =>
             lazymatch a with
             | (cmd =? 0x0d0400) => fail
             | _ => replace (a || b) with false by (by destruct Hc as [-> | ->])
             end
         end.
  rewrite Hif.
  unfold mbind at 1, M_bind at 1, lift, getitem. rewrite Hb. cbn [mret Exc_ret].
  by rewrite low_bit.
Qed.

(** The switch message.  Bit 0 of the third payload byte tells the lower
    switch from the upper one; bits 5:4 select the label.  Selector 3 has
    no label of its own: the decoder prints the label of the last switch
    message that had one, and raises [UnboundLocalError] when there was
    none, leaving the message in [data_packets]. *)
Theorem switch_message (key b : Z) (p : list Z) (st : State) :
  key <> 0 ->
  data_packets st !! key = Some p ->
  cmd_of key p ∈ switch_keys ->
  p !! 2%nat = Some b ->
  let r := decoder (Some key) st in
  let str0 := if Z.odd b then "lower" else "upper" in
  match switch_label b st with
  | Some s =>
      fst r = inr tt
      /\ stdout (snd r)
         = stdout st ++ [PacketLine key p; DecodLine key (Switch str0 s)]
      /\ str1 (snd r) = Some s
      /\ data_packets (snd r) = delete key (data_packets st)
  | None =>
      fst r = inl UnboundLocalError
      /\ stdout (snd r) = stdout st ++ [PacketLine key p]
      /\ data_packets (snd r) = data_packets st
  end.
Proof.
  intros Hk Hd Hsw Hb r str0. subst r.
  rewrite (switch_decoder key b p st) by done. cbv zeta. fold str0.
  unfold switch_label. cbv zeta.
  set (sel := Z.land (Z.shiftr b 4) 0x03).
  unfold mbind, M_bind, modify, local.
  destruct (sel =? 0);
    [cbn [str1 set_str1]; rewrite report_unfold;
     cbn [fst snd stdout str1 data_packets print set_str1 set_data_packets del];
     by rewrite <- app_assoc|].
  destruct (sel =? 1);
    [cbn [str1 set_str1]; rewrite report_unfold;
     cbn [fst snd stdout str1 data_packets print set_str1 set_data_packets del];
     by rewrite <- app_assoc|].
  destruct (sel =? 2);
    [cbn [str1 set_str1]; rewrite report_unfold;
     cbn [fst snd stdout str1 data_packets print set_str1 set_data_packets del];
     by rewrite <- app_assoc|].
  cbn [mret M_ret str1 print].
  destruct (str1 st) as [s|] eqn:Es; [|done].
  rewrite report_unfold.
  cbn [fst snd stdout str1 data_packets print set_str1 set_data_packets del].
  by rewrite Es, <- app_assoc.
Qed.

Lemma switch_message_witness :
  let p := [0x04; 0x00; 0x37] in
  let st := set_data_packets {[ 0x0d := p ]} init in
  let r := decoder (Some 0x0d) st in
  fst r = inl UnboundLocalError
  /\ stdout (snd r) = stdout st ++ [PacketLine 0x0d p]
  /\ data_packets (snd r) = data_packets st.
Proof.
  intros p st.
  apply (switch_message 0x0d 0x37 p st).
  - discriminate.
  - reflexivity.
  - vm_compute. left.
  - reflexivity.
Defined.

(** ** Header of a frame *)

Lemma header_fields (b : Z) :
  is_byte b ->
  Z.land (Z.shiftr b 6) 0x03 = b / 64
  /\ Z.land (Z.shiftr b 5) 0x01 = (b / 32) mod 2
  /\ Z.land (Z.shiftr b 0) 0x1f = b mod 32.
Proof.
  unfold is_byte. intros Hb.
  rewrite !Z.shiftr_div_pow2 by lia.
  change 0x03 with (Z.ones 2). change 0x01 with (Z.ones 1).
  change 0x1f with (Z.ones 5). rewrite !Z.land_ones by lia.
  change (2 ^ 6) with 64. change (2 ^ 5) with 32. change (2 ^ 2) with 4.
  change (2 ^ 1) with 2. change (2 ^ 0) with 1. rewrite Z.div_1_r.
  repeat split. apply Z.mod_small.
  split; [apply Z.div_pos; lia | apply Z.div_lt_upper_bound; lia].
Qed.

(** The fourth byte of a frame of 8 bytes with a device id other than 0 is
    cut into the frame type (bits 7:6), the reserved bit (bit 5) and the
    counter (bits 4:0); the three fields are kept for the frame log, and put
    together again they are the byte. *)
Theorem header_extracted (dev b : Z) (data_frame : list Z) (st : State) :
  dev <> 0 ->
  length data_frame = 8%nat ->
  data_frame !! 3%nat = Some b ->
  is_byte b ->
  exists frame_type counter reserved,
    header (snd (combine (Some dev) data_frame st))
    = (Some (frame_type_name frame_type), Some counter, Some reserved)
    /\ frame_type = frame_type_of data_frame
    /\ 0 <= frame_type < 4 /\ 0 <= reserved < 2 /\ 0 <= counter < 32
    /\ 64 * frame_type + 32 * reserved + counter = b.
Proof.
  intros Hd Hl Hb Hbyte.
  destruct (header_fields b Hbyte) as (Ht & Hr & Hc).
  assert (Hat : at_ data_frame 3 = b) by (unfold at_; by rewrite Hb).
  exists (b / 64), (b mod 32), ((b / 32) mod 2).
  unfold is_byte in Hbyte.
  assert (Hdd : b / 32 / 2 = b / 64) by (rewrite Zdiv_Zdiv by lia; done).
  split; [|split; [by unfold frame_type_of; rewrite Hat|]].
  2: { pose proof (Z.div_mod b 32 ltac:(lia)). pose proof (Z.div_mod (b / 32) 2 ltac:(lia)).
       pose proof (Z.mod_pos_bound b 32 ltac:(lia)).
       pose proof (Z.mod_pos_bound (b / 32) 2 ltac:(lia)). rewrite Hdd in *. lia. }
  unfold combine. cbv zeta. cbn [truthy]. rewrite (proj2 (Z.eqb_neq _ _) Hd), Hl.
  cbn [negb andb Nat.eqb]. unfold frame_type_of. rewrite Hat, Ht, Hr, Hc.
  unfold frame_type_name.
  repeat match goal with
         | |- context [if ?c then _ else _] => destruct c
         | |- context [match ?o with Some _ => _ | None => _ end] => destruct o
         end; reflexivity.
Qed.

Lemma header_extracted_witness :
  exists frame_type counter reserved,
    header (snd (combine (Some 0x0d) [0xcc; 0x40; 0x0d; 0xa5; 1; 2; 3; 0] init))
    = (Some (frame_type_name frame_type), Some counter, Some reserved)
    /\ frame_type = frame_type_of [0xcc; 0x40; 0x0d; 0xa5; 1; 2; 3; 0]
    /\ 0 <= frame_type < 4 /\ 0 <= reserved < 2 /\ 0 <= counter < 32
    /\ 64 * frame_type + 32 * reserved + counter = 0xa5.
Proof.
  apply (header_extracted 0x0d 0xa5 [0xcc; 0x40; 0x0d; 0xa5; 1; 2; 3; 0] init).
  - discriminate.
  - reflexivity.
  - reflexivity.
  - unfold is_byte. lia.
Defined.

(** A frame of 8 bytes or more that does not go through the reassembler
    (no device id, device id 0, or more than 8 bytes), and is not filtered,
    is logged with the header fields of the last frame that did; when no
    frame did yet, the frame log raises [UnboundLocalError]. *)
Theorem stale_header_logged (data_frame : list Z) (st : State) :
  (8 <= length data_frame)%nat ->
  filtered data_frame = false ->
  truthy (resolve_dev_id data_frame) && (length data_frame =? 8)%nat = false ->
  let r := process_frame data_frame st in
  match header st with
  | (Some s, Some c, Some n) =>
      fst r = inr tt
      /\ exists crc_text,
           stdout (snd r)
           = stdout st ++ [DemodLine (int_of (resolve_dev_id data_frame)) crc_text
                             data_frame (Some (s, c, n))]
  | _ => fst r = inl UnboundLocalError /\ stdout (snd r) = stdout st
  end.
Proof.
  intros Hl Hf Ht r. subst r. rewrite process_frame_unfold. cbv zeta.
  set (chk := check_crc data_frame (count_crc_err st)).
  set (st0 := set_count_crc_err _ _).
  unfold combine. rewrite Ht. cbn [fst snd].
  unfold print_frame. rewrite Hf. cbn [negb].
  rewrite (proj2 (Nat.ltb_ge _ _) Hl).
  unfold header, mbind, M_bind, local, modify.
  change (frame_type_str st) with (frame_type_str st0).
  change (counter st) with (counter st0). change (reserved st) with (reserved st0).
  change (stdout st) with (stdout st0). clearbody st0.
  destruct (frame_type_str st0) as [s|]; [|done].
  destruct (counter st0) as [c|]; [|done].
  destruct (reserved st0) as [n|]; [|done].
  rewrite decoder_None. split; [done|]. by exists (fst chk).
Qed.

Lemma stale_header_logged_witness :
  fst (process_frame [0; 0; 0; 0; 0; 0; 0; 0] init) = inl UnboundLocalError
  /\ stdout (snd (process_frame [0; 0; 0; 0; 0; 0; 0; 0] init)) = stdout init.
Proof.
  apply (stale_header_logged [0; 0; 0; 0; 0; 0; 0; 0] init).
  - cbn. lia.
  - reflexivity.
  - reflexivity.
Defined.

(** ** Command key *)

Lemma lor_shiftl_add (a b n : Z) :
  0 <= n -> 0 <= b < 2 ^ n -> Z.lor (Z.shiftl a n) b = a * 2 ^ n + b.
Proof.
  intros Hn Hb.
  assert (Hz : Z.land (Z.shiftl a n) b = 0).
  { destruct (Z.eq_dec b 0) as [->|Hb0]; [apply Z.land_0_r|].
    apply Z.bits_inj'. intros k Hk. rewrite Z.land_spec, Z.bits_0.
    destruct (Z.lt_ge_cases k n).
    - by rewrite Z.shiftl_spec_low.
    - rewrite (Z.bits_above_log2 b k), andb_false_r; [done|lia|].
      apply Z.log2_lt_pow2; [lia|].
      apply Z.lt_le_trans with (2 ^ n); [lia|].
      apply Z.pow_le_mono_r; lia. }
  rewrite <- Z.lxor_lor, <- Z.add_nocarry_lxor by done.
  by rewrite Z.shiftl_mul_pow2.
Qed.

Lemma cmd_of_parts (key b0 b1 : Z) (rest : list Z) :
  is_byte b0 -> is_byte b1 ->
  cmd_of key (b0 :: b1 :: rest) = 65536 * key + 256 * b0 + b1.
Proof.
  unfold is_byte. intros H0 H1.
  unfold cmd_of, slice, from_bytes_big. cbn [firstn skipn foldl Nat.sub].
  rewrite take_0. cbn [foldl].
  rewrite Z.shiftl_0_l, Z.lor_0_l.
  rewrite (lor_shiftl_add b0 b1 8) by (change (2 ^ 8) with 256; lia).
  change (2 ^ 8) with 256.
  rewrite (lor_shiftl_add key _ 16) by (change (2 ^ 16) with 65536; lia).
  change (2 ^ 16) with 65536. lia.
Qed.

(** The command key tells the device id and the first two payload bytes:
    it is 65536 * key + 256 * p[0] + p[1], so two messages have the same key
    only if they agree on all three. *)
Theorem command_key_unique (key1 key2 a0 a1 b0 b1 : Z) (r1 r2 : list Z) :
  is_byte a0 -> is_byte a1 -> is_byte b0 -> is_byte b1 ->
  cmd_of key1 (a0 :: a1 :: r1) = 65536 * key1 + 256 * a0 + a1
  /\ (cmd_of key1 (a0 :: a1 :: r1) = cmd_of key2 (b0 :: b1 :: r2) ->
      key1 = key2 /\ a0 = b0 /\ a1 = b1).
Proof.
  intros Ha0 Ha1 Hb0 Hb1. rewrite !cmd_of_parts by done.
  split; [done|]. unfold is_byte in *. lia.
Qed.

Lemma command_key_unique_witness :
  cmd_of 0x0d [0x3c; 0x08; 0x1a] = 65536 * 0x0d + 256 * 0x3c + 0x08
  /\ (cmd_of 0x0d [0x3c; 0x08; 0x1a] = cmd_of 0x0d [0x3c; 0x08; 0xff] ->
      0x0d = 0x0d /\ 0x3c = 0x3c /\ 0x08 = 0x08).
Proof.
  apply (command_key_unique 0x0d 0x0d 0x3c 0x08 0x3c 0x08 [0x1a] [0xff]);
    unfold is_byte; lia.
Defined.

(** ** Frames of a message *)

Lemma decoder_prints_packet (key : Z) (p : list Z) (st : State) :
  key <> 0 ->
  data_packets st !! key = Some p ->
  PacketLine key p ∈ stdout (snd (decoder (Some key) st)).
Proof.
  intros Hk Hd. pose proof (decoder_cases key p st Hk Hd) as H. cbv zeta in H.
  destruct H as [[_ ->] | [(_ & t & st2 & Hst2 & ->) | [(_ & _ & _ & ->) | (_ & _ & ->)]]];
    cbn [snd del stdout print set_data_packets].
  - set_solver.
  - destruct Hst2 as [-> | [s ->]]; cbn [stdout print set_str1]; set_solver.
  - set_solver.
  - set_solver.
Qed.

Lemma combine_sets_header (dev : Z) (data_frame : list Z) (st : State) :
  dev <> 0 -> length data_frame = 8%nat ->
  exists s n r,
    header (snd (combine (Some dev) data_frame st)) = (Some s, Some n, Some r).
Proof.
  intros Hd Hl. unfold combine. cbn [truthy].
  rewrite (proj2 (Z.eqb_neq _ _) Hd), Hl. cbn [negb andb Nat.eqb]. cbv zeta.
  repeat match goal with
         | |- context [if ?c then _ else _] => destruct c
         | |- context [match ?o with Some _ => _ | None => _ end] => destruct o
         end; by eexists _, _, _.
Qed.

(** A frame of 8 bytes with a device id other than 0 goes through the
    frame log without an exception: the reassembler has just set the header
    fields it prints. *)
Lemma print_frame_after_combine (dev : Z) (crc_text : string)
    (data_frame : list Z) (st : State) :
  dev <> 0 -> length data_frame = 8%nat ->
  let st1 := snd (combine (Some dev) data_frame st) in
  exists st2,
    print_frame (Some dev) crc_text data_frame st1 = (inr tt, st2)
    /\ data_packets st2 = data_packets st1.
Proof.
  intros Hd Hl st1.
  destruct (combine_sets_header dev data_frame st Hd Hl) as (s & n & r & Hh).
  fold st1 in Hh. unfold header in Hh. injection Hh as Hs Hn Hr.
  unfold print_frame. destruct (negb (filtered data_frame)); [|by eexists].
  rewrite Hl. cbn [Nat.ltb Nat.leb].
  unfold mbind, M_bind, local, modify. rewrite Hs, Hn, Hr. by eexists.
Qed.

Lemma combine_typed (dev : Z) (data_frame : list Z) (st : State) :
  dev <> 0 -> length data_frame = 8%nat ->
  let payload := slice 4 7 data_frame in
  let d := data_packets st in
  let c := fst (combine (Some dev) data_frame st) in
  let d1 := data_packets (snd (combine (Some dev) data_frame st)) in
  (frame_type_of data_frame = 2 -> c = None /\ d1 = <[dev := payload]> d)
  /\ (frame_type_of data_frame = 3 -> c = Some dev /\ d1 = <[dev := payload]> d)
  /\ (frame_type_of data_frame = 0 ->
      c = None
      /\ d1 = match d !! dev with
              | Some p => <[dev := p ++ payload]> d
              | None => d
              end)
  /\ (frame_type_of data_frame = 1 ->
      forall p, d !! dev = Some p ->
        c = Some dev /\ d1 = <[dev := p ++ payload]> d).
Proof.
  intros Hd Hl payload d c d1. subst payload d c d1. unfold combine. cbv zeta.
  cbn [truthy]. rewrite (proj2 (Z.eqb_neq _ _) Hd), Hl. cbn [negb andb Nat.eqb].
  change (int_of (Some dev)) with dev. cbn [set_header data_packets].
  split; [|split; [|split]]; intros Ht; rewrite Ht; cbn [Z.eqb Pos.eqb]; try done.
  - by destruct (data_packets st !! dev).
  - intros p Hp. by rewrite Hp.
Qed.

Lemma process_frame_typed (dev : Z) (data_frame : list Z) (st : State) :
  length data_frame = 8%nat ->
  resolve_dev_id data_frame = Some dev ->
  dev <> 0 ->
  let payload := slice 4 7 data_frame in
  let d := data_packets st in
  let r := process_frame data_frame st in
  (frame_type_of data_frame = 2 ->
   fst r = inr tt /\ data_packets (snd r) = <[dev := payload]> d)
  /\ (frame_type_of data_frame = 0 ->
      fst r = inr tt
      /\ data_packets (snd r) = match d !! dev with
                                | Some p => <[dev := p ++ payload]> d
                                | None => d
                                end)
  /\ (frame_type_of data_frame = 3 -> PacketLine dev payload ∈ stdout (snd r))
  /\ (frame_type_of data_frame = 1 ->
      forall p, d !! dev = Some p ->
        PacketLine dev (p ++ payload) ∈ stdout (snd r)).
Proof.
  intros Hl Hr Hd payload d r. subst r. rewrite process_frame_unfold. cbv zeta.
  rewrite Hr.
  set (chk := check_crc data_frame (count_crc_err st)).
  set (st0 := set_count_crc_err _ _).
  pose proof (print_frame_after_combine dev (fst chk) data_frame st0 Hd Hl) as Hpf.
  cbv zeta in Hpf. destruct Hpf as (st2 & -> & Hd2).
  pose proof (combine_typed dev data_frame st0 Hd Hl) as Hct.
  cbv zeta in Hct. destruct Hct as (Hff & Hsf & Hcf & Hlf).
  change (data_packets st0) with d in *.
  split; [|split; [|split]].
  - intros Ht. destruct (Hff Ht) as [-> Hd1]. rewrite decoder_None.
    split; [done|]. cbn [snd]. by rewrite Hd2, Hd1.
  - intros Ht. destruct (Hcf Ht) as [-> Hd1]. rewrite decoder_None.
    split; [done|]. cbn [snd]. by rewrite Hd2, Hd1.
  - intros Ht. destruct (Hsf Ht) as [-> Hd1].
    apply decoder_prints_packet; [done|].
    rewrite Hd2, Hd1. apply lookup_insert_eq.
  - intros Ht p Hp. destruct (Hlf Ht p Hp) as [-> Hd1].
    apply decoder_prints_packet; [done|].
    rewrite Hd2, Hd1. apply lookup_insert_eq.
Qed.

(** A first frame always starts the message of its device afresh, and a
    single frame always completes at once, whatever the device had open:
    the first frame leaves its three payload bytes as the entry of the
    device, the single frame hands its three payload bytes to the decoder
    (the packet line is printed). *)
Theorem first_and_single_frame (dev : Z) (data_frame : list Z) (st : State) :
  dev <> 0 ->
  (frame_of dev 2 data_frame ->
   fst (process_frame data_frame st) = inr tt
   /\ data_packets (snd (process_frame data_frame st))
      = <[dev := slice 4 7 data_frame]> (data_packets st))
  /\ (frame_of dev 3 data_frame ->
      PacketLine dev (slice 4 7 data_frame)
        ∈ stdout (snd (process_frame data_frame st))).
Proof.
  intros Hd. split; intros (Hl & Hr & Ht);
    pose proof (process_frame_typed dev data_frame st Hl Hr Hd) as H;
    cbv zeta in H; destruct H as (Hff & _ & Hsf & _); auto.
Qed.

Lemma first_and_single_frame_witness :
  let st := set_data_packets {[ 0x0d := [9; 9; 9; 9; 9; 9] ]} init in
  let ff := [0xcc; 0x40; 0x0d; 0x80; 0x16; 0x20; 0x3d; 0x00] in
  let sf := [0xcc; 0x40; 0x0d; 0xc0; 0x26; 0x40; 0x64; 0x00] in
  (fst (process_frame ff st) = inr tt
   /\ data_packets (snd (process_frame ff st))
      = <[0x0d := slice 4 7 ff]> (data_packets st))
  /\ PacketLine 0x0d (slice 4 7 sf) ∈ stdout (snd (process_frame sf st)).
Proof.
  intros st ff sf.
  destruct (first_and_single_frame 0x0d ff st) as [Hff _]; [discriminate|].
  destruct (first_and_single_frame 0x0d sf st) as [_ Hsf]; [discriminate|].
  split; [apply Hff | apply Hsf]; by repeat split.
Defined.

Lemma process_frames_consecutive (dev : Z) (cfs : list (list Z)) (p : list Z)
    (st : State) :
  dev <> 0 ->
  Forall (frame_of dev 0) cfs ->
  data_packets st !! dev = Some p ->
  fst (process_frames cfs st) = inr tt
  /\ data_packets (snd (process_frames cfs st)) !! dev
     = Some (p ++ concat (map (slice 4 7) cfs)).
Proof.
  intros Hd Hc. revert p st.
  induction Hc as [|f cfs (Hl & Hr & Ht) Hc IH]; intros p st Hp.
  { cbn. by rewrite app_nil_r. }
  cbn [process_frames map concat]. unfold mbind, M_bind.
  pose proof (process_frame_typed dev f st Hl Hr Hd) as H. cbv zeta in H.
  destruct H as (_ & Hcf & _). destruct (Hcf Ht) as [Hok Hdp].
  rewrite Hp in Hdp.
  destruct (process_frame f st) as [[e|[]] st1]; [done|]. cbn [snd] in Hdp.
  rewrite app_assoc. apply IH. rewrite Hdp. apply lookup_insert_eq.
Qed.

(** A message in several frames.  After a first frame and any number of
    consecutive frames of one device (no exception on the way) the entry of
    the device is their payloads in order; the last frame of the device then
    hands these payloads followed by its own to the decoder. *)
Theorem multi_frame_message (dev : Z) (ff lf : list Z) (cfs : list (list Z))
    (st : State) :
  dev <> 0 ->
  frame_of dev 2 ff ->
  Forall (frame_of dev 0) cfs ->
  frame_of dev 1 lf ->
  let body := slice 4 7 ff ++ concat (map (slice 4 7) cfs) in
  let r := process_frames (ff :: cfs) st in
  fst r = inr tt
  /\ data_packets (snd r) !! dev = Some body
  /\ length body = (3 * (1 + length cfs))%nat
  /\ PacketLine dev (body ++ slice 4 7 lf)
       ∈ stdout (snd (process_frame lf (snd r))).
Proof.
  intros Hd (Hl & Hr & Ht) Hc (Hl' & Hr' & Ht') body r. subst r.
  cbn [process_frames]. unfold mbind, M_bind.
  pose proof (process_frame_typed dev ff st Hl Hr Hd) as H. cbv zeta in H.
  destruct H as (Hff & _). destruct (Hff Ht) as [Hok Hdp].
  destruct (process_frame ff st) as [[e|[]] st1]; [done|]. cbn [snd] in Hdp.
  destruct (process_frames_consecutive dev cfs (slice 4 7 ff) st1 Hd Hc)
    as [Hok2 Hdp2].
  { rewrite Hdp. apply lookup_insert_eq. }
  fold body in Hdp2. split; [done|]. split; [done|]. split.
  - subst body. rewrite length_app, slice_4_7_length by done.
    clear Hdp2 Hok2. induction Hc as [|f cfs (Hlf & _) Hc IH]; [done|].
    cbn [map concat length]. rewrite length_app, slice_4_7_length by done.
    lia.
  - pose proof (process_frame_typed dev lf (snd (process_frames cfs st1)) Hl' Hr' Hd)
      as H. cbv zeta in H. destruct H as (_ & _ & _ & Hlf). by apply Hlf.
Qed.

Lemma multi_frame_message_witness :
  let ff := [0xcc; 0x40; 0x0d; 0x80; 0x16; 0x20; 0x3d; 0x00] in
  let cf := [0xcc; 0x40; 0x0d; 0x01; 0x00; 0x5c; 0x00; 0x00] in
  let lf := [0xcc; 0x40; 0x0d; 0x42; 0xb8; 0x00; 0xff; 0x00] in
  let body := slice 4 7 ff ++ concat (map (slice 4 7) [cf]) in
  let r := process_frames [ff; cf] init in
  fst r = inr tt
  /\ data_packets (snd r) !! 0x0d = Some body
  /\ length body = (3 * (1 + length [cf]))%nat
  /\ PacketLine 0x0d (body ++ slice 4 7 lf)
       ∈ stdout (snd (process_frame lf (snd r))).
Proof.
  intros ff cf lf.
  apply (multi_frame_message 0x0d ff lf [cf] init).
  - discriminate.
  - by repeat split.
  - repeat constructor.
  - by repeat split.
Defined.

(** ** What the filter does not stop *)

Lemma filtered_dev_id (data_frame : list Z) :
  filtered data_frame = true ->
  resolve_dev_id data_frame = None
  \/ resolve_dev_id data_frame = Some 0
  \/ resolve_dev_id data_frame = Some 0x0d
  \/ resolve_dev_id data_frame = Some 0x13.
Proof.
  intros Hf%filtered_iff.
  destruct data_frame as [|b0 [|b1 [|b2 rest]]];
    try (exfalso; unfold MSG_FILTER in Hf;
         repeat (apply elem_of_cons in Hf as [Hf|Hf]; [discriminate Hf|]);
         by apply elem_of_nil in Hf).
  cbn [take] in Hf. rewrite take_0 in Hf. unfold MSG_FILTER in Hf.
  repeat (apply elem_of_cons in Hf as [Hf|Hf];
          [injection Hf as -> -> ->; vm_compute; tauto|]).
  by apply elem_of_nil in Hf.
Qed.

(** The filter keeps a frame out of the frame log and stops nothing else.
    Two of its six signatures, [cc 8d 01] and [cc 93 01], resolve to a
    device id (0x0d and 0x13), the other four to none or to 0: a frame of
    8 bytes that starts with one of the two goes through the reassembler
    and the decoder unlogged, so a first frame restarts the message of the
    device and a single frame is decoded. *)
Theorem filtered_frame_still_assembled (data_frame : list Z) (st : State) :
  length data_frame = 8%nat ->
  filtered data_frame = true ->
  let r := process_frame data_frame st in
  let dev := int_of (resolve_dev_id data_frame) in
  demod_lines (snd r) = demod_lines st
  /\ (dev = 0 \/ dev = 0x0d \/ dev = 0x13)
  /\ (dev <> 0 -> frame_type_of data_frame = 2 ->
      data_packets (snd r) = <[dev := slice 4 7 data_frame]> (data_packets st))
  /\ (dev <> 0 -> frame_type_of data_frame = 3 ->
      PacketLine dev (slice 4 7 data_frame) ∈ stdout (snd r)).
Proof.
  intros Hl Hf r dev. split.
  { subst r. unfold process_frame, mbind at 1 2, M_bind at 1 2, modify.
    destruct (check_crc data_frame _) as [crc_text n].
    by rewrite (proj1 (frame_body_demod_lines _ _ _ _) Hf). }
  assert (Hdev : forall d, resolve_dev_id data_frame = Some d -> d <> 0 ->
            (frame_type_of data_frame = 2 ->
             data_packets (snd r) = <[d := slice 4 7 data_frame]> (data_packets st))
            /\ (frame_type_of data_frame = 3 ->
                PacketLine d (slice 4 7 data_frame) ∈ stdout (snd r))).
  { intros d Hr Hd.
    pose proof (process_frame_typed d data_frame st Hl Hr Hd) as H. cbv zeta in H.
    destruct H as (Hff & _ & Hsf & _). split; [|done].
    intros Ht. by destruct (Hff Ht). }
  subst dev.
  destruct (filtered_dev_id data_frame Hf) as [E | [E | [E | E]]]; rewrite E;
    cbn [int_of].
  - split; [by left|]. by split.
  - split; [by left|]. by split.
  - split; [right; by left|]. destruct (Hdev _ E) as [H2 H3]; [done|].
    split; intros _; [apply H2 | apply H3].
  - split; [right; by right|]. destruct (Hdev _ E) as [H2 H3]; [done|].
    split; intros _; [apply H2 | apply H3].
Qed.

Lemma filtered_frame_still_assembled_witness :
  let data_frame := [0xcc; 0x8d; 0x01; 0xc0; 0x26; 0x40; 0x64; 0x00] in
  let r := process_frame data_frame init in
  demod_lines (snd r) = demod_lines init
  /\ PacketLine 0x0d [0x26; 0x40; 0x64] ∈ stdout (snd r).
Proof.
  intros data_frame r.
  destruct (filtered_frame_still_assembled data_frame init) as (Hlog & _ & _ & Hsf);
    [reflexivity | reflexivity |].
  split; [exact Hlog|]. apply Hsf; [discriminate | reflexivity].
Defined.
